(** * Dashboards with Plotly and Dash: the chart builders and their contracts

    A shallow embedding of the callbacks of the three applications of the
    repository:

    - [project4/table_and_figure_app.py]: a histogram over a housing table;
    - [project5/real_time_stock_chart.py] and [real_time_stock_chart2.py]:
      a candlestick chart over a price history fetched per submission;
    - [project6/gapmider_dashboard_with_Taps.py]: bar charts and a
      choropleth map over the Gapminder table.

    Python dictionaries ([style], the keyword arguments of [update_layout])
    are finite maps; data frames are lists of rows or of labelled columns;
    the network download is an event of a small program type whose
    interpreter records every call. *)

From Stdlib Require Import QArith Ascii.
From stdpp Require Import gmap strings list sorting pretty.

Open Scope string_scope.
Open Scope Z_scope.

(** ** Python values and exceptions *)

(** The values that the callbacks store in a layout or a style. *)
Inductive pyval : Type :=
| PNone
| PStr (s : string)
| PInt (z : Z)
| PBool (b : bool)
| PDict (d : gmap string Z).

(** The exceptions that pandas and plotly raise in the modelled paths. *)
Inductive exn : Type :=
| KeyError (label : string)
| ValueError (msg : string).

Inductive result (A : Type) : Type :=
| Ok (a : A)
| Raised (e : exn).
Arguments Ok {A} a.
Arguments Raised {A} e.

Definition result_to_option {A} (r : result A) : option A :=
  match r with
  | Ok a => Some a
  | Raised _ => None
  end.

Definition bind_result {A B} (r : result A) (k : A → result B) : result B :=
  match r with
  | Ok a => k a
  | Raised e => Raised e
  end.

(** ** Plotly figures

    A figure is a list of traces and a layout. The layout is the dictionary
    of the properties set so far; [update_layout] merges its keyword
    arguments into it, a later keyword replacing an earlier one. *)
Record Figure (T : Type) : Type := mkFigure {
  data : list T;
  layout : gmap string pyval
}.
Arguments mkFigure {T} data layout.
Arguments data {T} f.
Arguments layout {T} f.

(** [go.Figure()] *)
Definition go_Figure {T} : Figure T := mkFigure [] ∅.

(** [go.Figure(data=[...])] *)
Definition go_Figure_data {T} (traces : list T) : Figure T := mkFigure traces ∅.

(** [fig.add_trace(t)] *)
Definition add_trace {T} (t : T) (fig : Figure T) : Figure T :=
  mkFigure (data fig ++ [t]) (layout fig).

(** [fig.update_layout(k1=v1, k2=v2, ...)] *)
Definition update_layout {T} (kwargs : list (string * pyval)) (fig : Figure T)
  : Figure T :=
  mkFigure (data fig) (foldl (λ m kv, <[kv.1 := kv.2]> m) (layout fig) kwargs).

Definition title {T} (fig : Figure T) : option pyval := layout fig !! "title".

(** The kind of a chart is the type of its traces. *)
Inductive chart_kind : Type :=
| KTable | KHistogram | KBar | KCandlestick | KChoropleth.

Class TraceKind (T : Type) : Type := kind_of : T → chart_kind.

(** The kind of the chart that a figure draws: that of its first trace, and
    none for a figure without traces. *)
Definition figure_kind {T} `{TraceKind T} (fig : Figure T) : option chart_kind :=
  match data fig with
  | [] => None
  | t :: _ => Some (kind_of t)
  end.

(** ** project6: the Gapminder dashboard *)
Module Gapminder.

(** One row of [gapminder_df], loaded with [datetimes=True],
    [centroids=True], [pretty_names=True], after
    [gapminder_df["Year"] = gapminder_df["Year"].dt.year].
    The float columns hold finite values, modelled as rationals: the
    builders only compare them. *)
Record row : Type := mkRow {
  Country : string;
  Continent : string;
  Year : Z;
  Life_Expectancy : Q;
  Population : Z;
  GDP_per_Capita : Q;
  ISO_Alpha_Country_Code : string;
  ISO_Numeric_Country_Code : Z;
  Centroid_Latitude : Q;
  Centroid_Longitude : Q
}.

(** [gapminder_df.columns] *)
Definition columns : list string :=
  [ "Country"; "Continent"; "Year"; "Life Expectancy"; "Population";
    "GDP per Capita"; "ISO Alpha Country Code"; "ISO Numeric Country Code";
    "Centroid Longitude"; "Centroid Latitude" ].

(** The numeric columns seen as sort keys. *)
Definition numeric_column (by_ : string) : option (row → Q) :=
  if decide (by_ = "Year") then Some (λ r, inject_Z (Year r))
  else if decide (by_ = "Life Expectancy") then Some Life_Expectancy
  else if decide (by_ = "Population") then Some (λ r, inject_Z (Population r))
  else if decide (by_ = "GDP per Capita") then Some GDP_per_Capita
  else if decide (by_ = "ISO Numeric Country Code")
       then Some (λ r, inject_Z (ISO_Numeric_Country_Code r))
  else if decide (by_ = "Centroid Latitude") then Some Centroid_Latitude
  else if decide (by_ = "Centroid Longitude") then Some Centroid_Longitude
  else None.

(** The traces that the dashboard builds. A plotly express trace keeps the
    frame it was given and the names of the columns it plots. *)
Inductive trace : Type :=
| Table (header : list string) (cells : list row)
| Bar (data_frame : list row) (x y color : string) (text_auto : bool)
| Choropleth (data_frame : list row) (color locations locationmode
              color_continuous_scale : string) (hover_data : list string).

#[export] Instance trace_kind : TraceKind trace := λ t,
  match t with
  | Table _ _ => KTable
  | Bar _ _ _ _ _ => KBar
  | Choropleth _ _ _ _ _ _ => KChoropleth
  end.

(** The rows that a trace plots, in plotting order. *)
Definition trace_rows (t : trace) : list row :=
  match t with
  | Table _ cells => cells
  | Bar df _ _ _ _ => df
  | Choropleth df _ _ _ _ _ => df
  end.

Definition figure_rows (fig : Figure trace) : list row :=
  flat_map trace_rows (data fig).

(** [df[(df["Continent"] == continent) & (df["Year"] == year)]] *)
Definition select_continent_year (df : list row) (continent : string)
  (year : Z) : list row :=
  filter (λ r, Continent r = continent ∧ Year r = year) df.

(** [df[df["Year"] == year]] *)
Definition select_year (df : list row) (year : Z) : list row :=
  filter (λ r, Year r = year) df.

(** [df.head(n)] *)
Definition head (n : nat) (df : list row) : list row := take n df.

(** [px.bar(df, x=, y=, color=, title=, text_auto=)]; plotly express
    refuses a column name that the frame does not have. *)
Definition px_bar (df : list row) (x y color title_ : string)
  (text_auto : bool) : result (Figure trace) :=
  if decide (x ∈ columns ∧ y ∈ columns ∧ color ∈ columns)
  then Ok (mkFigure [Bar df x y color text_auto] {[ "title" := PStr title_ ]})
  else Raised (ValueError "not the name of a column in 'data_frame'").

(** [px.choropleth(df, color=, locations=, locationmode=,
    color_continuous_scale=, hover_data=, title=)] *)
Definition px_choropleth (df : list row) (color locations locationmode
  color_continuous_scale : string) (hover_data : list string)
  (title_ : string) : result (Figure trace) :=
  if decide (color ∈ columns ∧ locations ∈ columns
             ∧ Forall (λ c, c ∈ columns) hover_data)
  then Ok (mkFigure
             [Choropleth df color locations locationmode
                         color_continuous_scale hover_data]
             {[ "title" := PStr title_ ]})
  else Raised (ValueError "not the name of a column in 'data_frame'").

(** [create_table()] *)
Definition create_table (gapminder_df : list row) : Figure trace :=
  update_layout
    [ ("paper_bgcolor", PStr "#e5ecf6");
      ("margin", PDict (<["t" := 0]> (<["l" := 0]> (<["r" := 0]> {["b" := 0]}))));
      ("height", PInt 700) ]
    (go_Figure_data [Table columns gapminder_df]).

Section Builders.
(** [DataFrame.sort_values(by=, ascending=)], called with the default
    [kind]: pandas documents the result as the rows reordered by the
    column, and documents only [kind="mergesort"] and [kind="stable"]
    as stable. The builders are written over any such function. *)
Context (sort_values : string → bool → list row → list row).

(** [create_population_chart(continent, year)] *)
Definition create_population_chart (gapminder_df : list row)
  (continent : string) (year : Z) : result (Figure trace) :=
  let filtered_df := select_continent_year gapminder_df continent year in
  let filtered_df := head 15 (sort_values "Population" false filtered_df) in
  bind_result
    (px_bar filtered_df "Country" "Population" "Country"
       ("Country Population for " +:+ continent +:+ " Continent in "
          +:+ pretty year)
       true)
    (λ fig,
       Ok (update_layout
             [ ("paper_bgcolor", PStr "#e5ecf6"); ("height", PInt 600) ]
             fig)).

(** [create_gdp_chart(continent, year)] *)
Definition create_gdp_chart (gapminder_df : list row)
  (continent : string) (year : Z) : result (Figure trace) :=
  let filtered_df := select_continent_year gapminder_df continent year in
  let filtered_df :=
    head 15 (sort_values "GDP per Capita" false filtered_df) in
  bind_result
    (px_bar filtered_df "Country" "GDP per Capita" "Country"
       ("Country GDP per Capita for " +:+ continent +:+ " Continent in "
          +:+ pretty year)
       true)
    (λ fig,
       Ok (update_layout
             [ ("paper_bgcolor", PStr "#e5ecf6"); ("height", PInt 600) ]
             fig)).

(** [create_life_exp_chart(continent, year)] *)
Definition create_life_exp_chart (gapminder_df : list row)
  (continent : string) (year : Z) : result (Figure trace) :=
  let filtered_df := select_continent_year gapminder_df continent year in
  let filtered_df :=
    head 15 (sort_values "Life Expectancy" false filtered_df) in
  bind_result
    (px_bar filtered_df "Country" "Life Expectancy" "Country"
       ("Country Life Expectancy for " +:+ continent +:+ " Continent in "
          +:+ pretty year)
       true)
    (λ fig,
       Ok (update_layout
             [ ("paper_bgcolor", PStr "#e5ecf6"); ("height", PInt 600) ]
             fig)).
End Builders.

(** [create_choropleth_map(variable, year)] *)
Definition create_choropleth_map (gapminder_df : list row)
  (variable : string) (year : Z) : result (Figure trace) :=
  let filtered_df := select_year gapminder_df year in
  bind_result
    (px_choropleth filtered_df variable "ISO Alpha Country Code" "ISO-3"
       "RdYlBu" ["Country"; variable]
       (variable +:+ " Choropleth Map [" +:+ pretty year +:+ "]"))
    (λ fig,
       Ok (update_layout
             [ ("dragmode", PBool false);
               ("paper_bgcolor", PStr "#e5ecf6");
               ("height", PInt 600);
               ("margin", PDict (<["l" := 0]> {["r" := 0]})) ]
             fig)).

(** *** The callbacks

    The table is a module-level global: a callback reads it and leaves
    the process state as it found it. *)
Record app_state : Type := mkState { gapminder_df : list row }.

Definition callback (A : Type) : Type := app_state → A * app_state.

Section Callbacks.
Context (sort_values : string → bool → list row → list row).

Definition update_population_chart (continent : string) (year : Z)
  : callback (result (Figure trace)) :=
  λ st, (create_population_chart sort_values (gapminder_df st) continent year, st).

Definition update_gdp_chart (continent : string) (year : Z)
  : callback (result (Figure trace)) :=
  λ st, (create_gdp_chart sort_values (gapminder_df st) continent year, st).

Definition update_life_exp_chart (continent : string) (year : Z)
  : callback (result (Figure trace)) :=
  λ st, (create_life_exp_chart sort_values (gapminder_df st) continent year, st).
End Callbacks.

Definition update_map (variable : string) (year : Z)
  : callback (result (Figure trace)) :=
  λ st, (create_choropleth_map (gapminder_df st) variable year, st).

End Gapminder.

(** ** project5: the candlestick viewers *)

(** *** The price history and the calls that fetch it *)
Module YFinance.

(** [df.columns]: plain labels, or the two-level index that pairs a price
    field with a ticker, as in [('Open', 'AAPL')]. *)
Inductive column_index : Type :=
| Index (labels : list string)
| MultiIndex (tuples : list (string * string)).

(** A column of values: timestamps, floats (with [None] for NaN), or the
    result of [pd.to_datetime] over floats, kept symbolic. *)
Inductive series : Type :=
| Datetimes (ts : list Z)
| Floats (xs : list (option Q))
| ToDatetime (xs : list (option Q)).

(** The frame that [yf.download] returns: rows indexed by trading date,
    one column of prices per entry of [columns]. *)
Record PriceFrame : Type := mkPriceFrame {
  index_name : option string;
  index : list Z;
  columns : column_index;
  values : list (list (option Q))
}.

(** [len(df.columns)] *)
Definition width (c : column_index) : nat :=
  match c with
  | Index labels => length labels
  | MultiIndex tuples => length tuples
  end.

(** [len(df)] *)
Definition len (df : PriceFrame) : nat := length (index df).

(** [df.empty]: some axis has length zero. *)
Definition empty (df : PriceFrame) : bool :=
  bool_decide (len df = 0%nat) || bool_decide (width (columns df) = 0%nat).

(** [isinstance(df.columns, pd.MultiIndex)] *)
Definition is_MultiIndex (c : column_index) : bool :=
  match c with
  | Index _ => false
  | MultiIndex _ => true
  end.

(** [df.columns.get_level_values(0)] *)
Definition get_level_values_0 (c : column_index) : column_index :=
  match c with
  | Index labels => Index labels
  | MultiIndex tuples => Index (tuples.*1)
  end.

(** [df.columns = c] *)
Definition set_columns (c : column_index) (df : PriceFrame) : PriceFrame :=
  mkPriceFrame (index_name df) (index df) c (values df).

(** [col in df.columns]; on a two-level index a bare label is looked up
    in the first level. *)
Definition contains (c : column_index) (col : string) : bool :=
  match c with
  | Index labels => bool_decide (col ∈ labels)
  | MultiIndex tuples => bool_decide (col ∈ tuples.*1)
  end.

(** The labels under which [df[...]] finds the columns. *)
Definition labels_of (c : column_index) : list string :=
  match c with
  | Index labels => labels
  | MultiIndex tuples => tuples.*1
  end.

(** A frame after [reset_index]: labelled columns, the former index
    first. *)
Abbreviation Table := (list (string * series)).

(** [df.reset_index()]: the index becomes a column named after it
    ([index], or [level_0], for an index without name); pandas refuses to
    insert a label that a column already has. *)
Definition reset_index (df : PriceFrame) : result Table :=
  let labels := labels_of (columns df) in
  let name :=
    match index_name df with
    | Some n => n
    | None => if bool_decide ("index" ∈ labels) then "level_0" else "index"
    end in
  if bool_decide (name ∈ labels)
  then Raised (ValueError ("cannot insert " +:+ name +:+ ", already exists"))
  else Ok ((name, Datetimes (index df))
             :: zip labels (Floats <$> values df)).

(** [df[label]]: the columns under that label, all of them when the
    label is repeated; [KeyError] when there is none. *)
Definition getitem (df : Table) (label : string) : result (list series) :=
  match (filter (λ c, c.1 = label) df).*2 with
  | [] => Raised (KeyError label)
  | sel => Ok sel
  end.

(** [pd.to_datetime(sel)] on what [df[label]] returned: timestamps are
    kept, numbers are converted, and a frame of several columns is
    refused. *)
Definition to_datetime (sel : list series) : result series :=
  match sel with
  | [Datetimes ts] => Ok (Datetimes ts)
  | [Floats xs] => Ok (ToDatetime xs)
  | [ToDatetime xs] => Ok (ToDatetime xs)
  | _ => Raised (ValueError "to assemble mappings requires at least that [year, month, day] be specified")
  end.

(** [df[label] = sel] for a single column [sel]: the column under
    [label] is replaced, or appended when the label is new. *)
Definition setitem (df : Table) (label : string) (s : series) : Table :=
  if bool_decide (label ∈ df.*1)
  then (λ c, if decide (c.1 = label) then (label, s) else c) <$> df
  else df ++ [(label, s)].

(** [go.Candlestick(x=, open=, high=, low=, close=, name=)] *)
Record trace : Type := Candlestick {
  x : list series;
  open : list series;
  high : list series;
  low : list series;
  close : list series;
  name : string
}.

#[export] Instance trace_kind : TraceKind trace := λ _, KCandlestick.

(** What [df[label]] returned is one column, which plotly takes as an
    array, and not a frame of several columns. *)
Definition is_column (sel : list series) : bool :=
  bool_decide (length sel = 1%nat).

(** The first property, in the order in which the constructor sets them,
    whose value is not one column. *)
Definition invalid_property (x_ open_ high_ low_ close_ : list series)
  : option string :=
  if negb (is_column close_) then Some "close"
  else if negb (is_column high_) then Some "high"
  else if negb (is_column low_) then Some "low"
  else if negb (is_column open_) then Some "open"
  else if negb (is_column x_) then Some "x"
  else None.

(** What plotly raises for a property that was given a frame; the text is
    the first line of its message. *)
Definition invalid_value (property : string) : exn :=
  ValueError
    ("Invalid value of type 'pandas.core.frame.DataFrame' received for the '"
       +:+ property +:+ "' property of candlestick").

(** [go.Candlestick(x=, open=, high=, low=, close=, name=)]: the call
    raises for a value that is a frame, as [df[label]] is when the label is
    repeated after a download of several tickers. *)
Definition go_Candlestick (x_ open_ high_ low_ close_ : list series)
  (name_ : string) : result trace :=
  match invalid_property x_ open_ high_ low_ close_ with
  | Some property => Raised (invalid_value property)
  | None => Ok (Candlestick x_ open_ high_ low_ close_ name_)
  end.

(** One call of [yf.download(ticker, start=, end=, group_by=)]. *)
Record request : Type := mkRequest {
  req_ticker : string;
  req_start : option string;
  req_end : option string;
  req_group_by : string
}.

(** What the callbacks print. *)
Inductive line : Type :=
| DownloadedRows (n : nat)
| OriginalColumns (c : column_index)
| SimplifiedColumns (c : column_index).

(** A callback body: it returns, raises, downloads and goes on with the
    frame it got, or prints and goes on. *)
Inductive Prog (A : Type) : Type :=
| Ret (a : A)
| Raise (e : exn)
| Download (r : request) (k : PriceFrame → Prog A)
| Print (l : line) (k : Prog A).
Arguments Ret {A} a.
Arguments Raise {A} e.
Arguments Download {A} r k.
Arguments Print {A} l k.

Fixpoint bind {A B} (p : Prog A) (f : A → Prog B) : Prog B :=
  match p with
  | Ret a => f a
  | Raise e => Raise e
  | Download r k => Download r (λ df, bind (k df) f)
  | Print l k => Print l (bind k f)
  end.

Notation "'let*' x := p 'in' k" := (bind p (λ x, k))
  (at level 10, x name, p at level 100, k at level 200, only parsing).
Notation "p ;; k" := (bind p (λ _ : unit, k))
  (at level 100, k at level 200, right associativity, only parsing).

(** [yf.download(...)] *)
Definition download (ticker : string) (start end_ : option string)
  (group_by : string) : Prog PriceFrame :=
  Download (mkRequest ticker start end_ group_by) Ret.

(** [print(...)] *)
Definition print (l : line) : Prog unit := Print l (Ret ()).

(** A pandas or plotly call that may raise. *)
Definition lift {A} (r : result A) : Prog A :=
  match r with
  | Ok a => Ret a
  | Raised e => Raise e
  end.

(** What one invocation did: its result, the downloads it issued and the
    lines it printed, both in order. *)
Record outcome (A : Type) : Type := mkOutcome {
  returned : result A;
  downloads : list request;
  stdout : list line
}.
Arguments mkOutcome {A} returned downloads stdout.
Arguments returned {A} o.
Arguments downloads {A} o.
Arguments stdout {A} o.

(** Running a body against a network that answers each request. *)
Fixpoint run {A} (network : request → PriceFrame) (p : Prog A) : outcome A :=
  match p with
  | Ret a => mkOutcome (Ok a) [] []
  | Raise e => mkOutcome (Raised e) [] []
  | Download r k =>
      let o := run network (k (network r)) in
      mkOutcome (returned o) (r :: downloads o) (stdout o)
  | Print l k =>
      let o := run network k in
      mkOutcome (returned o) (downloads o) (l :: stdout o)
  end.

(** Running a body against a network whose download may itself raise:
    [yf.download] is called outside any [try], so its exception leaves the
    callback at the call, after the request was issued and before anything
    else is done. *)
Fixpoint run_faulty {A} (network : request → result PriceFrame) (p : Prog A)
  : outcome A :=
  match p with
  | Ret a => mkOutcome (Ok a) [] []
  | Raise e => mkOutcome (Raised e) [] []
  | Download r k =>
      match network r with
      | Ok df =>
          let o := run_faulty network (k df) in
          mkOutcome (returned o) (r :: downloads o) (stdout o)
      | Raised e => mkOutcome (Raised e) [r] []
      end
  | Print l k =>
      let o := run_faulty network k in
      mkOutcome (returned o) (downloads o) (l :: stdout o)
  end.

(** [not n_clicks]: [None] and [0] are false. *)
Definition truthy (n_clicks : option Z) : bool :=
  match n_clicks with
  | None => false
  | Some n => negb (n =? 0)
  end.

(** [s.upper()] for a string of ASCII characters: the letters [a] to [z]
    become [A] to [Z]. Python also maps letters beyond ASCII, which are
    left as they are here: what is stated of the result is stated for a
    ticker of ASCII characters, or under a hypothesis on the result. *)
Definition upper_ascii (a : ascii) : ascii :=
  let n := nat_of_ascii a in
  if ((97 <=? n)%nat && (n <=? 122)%nat)%bool then ascii_of_nat (n - 32)%nat else a.

Fixpoint upper (s : string) : string :=
  match s with
  | EmptyString => EmptyString
  | String a s' => String (upper_ascii a) (upper s')
  end.

(** The [for col in [...]: if col not in df.columns: return ...] loop:
    the first required column that the frame lacks. *)
Fixpoint first_missing (required : list string) (c : column_index)
  : option string :=
  match required with
  | [] => None
  | col :: rest =>
      if negb (contains c col) then Some col else first_missing rest c
  end.

End YFinance.

(** *** [real_time_stock_chart.py] *)
Module RealTimeStockChart.
Import YFinance.

(** [update_chart(n_clicks, ticker, start_date, end_date)]: the figure
    and the style of the chart container. *)
Definition update_chart (n_clicks : option Z) (ticker : string)
  (start_date end_date : option string)
  : Prog (Figure trace * gmap string pyval) :=
  if negb (truthy n_clicks) then
    Ret (go_Figure, {[ "visibility" := PStr "hidden" ]})
  else
    let* df := download ticker start_date end_date "column" in
    print (DownloadedRows (len df));;
    print (OriginalColumns (columns df));;
    if empty df then
      let empty_fig := go_Figure in
      let empty_fig :=
        update_layout
          [ ("title", PStr "No data returned for this ticker/date range");
            ("template", PStr "plotly_dark");
            ("xaxis_title", PStr "Date");
            ("yaxis_title", PStr "Price (USD)") ]
          empty_fig in
      Ret (empty_fig, {[ "visibility" := PStr "visible" ]})
    else
      let* df :=
        (if is_MultiIndex (columns df) then
           let df := set_columns (get_level_values_0 (columns df)) df in
           print (SimplifiedColumns (columns df));;
           Ret df
         else Ret df) in
      match first_missing ["Open"; "High"; "Low"; "Close"] (columns df) with
      | Some col =>
          let fig := go_Figure in
          let fig :=
            update_layout
              [ ("title", PStr ("Missing '" +:+ col +:+ "' data for " +:+ ticker));
                ("template", PStr "plotly_dark");
                ("xaxis_title", PStr "Date");
                ("yaxis_title", PStr "Price (USD)") ]
              fig in
          Ret (fig, {[ "visibility" := PStr "visible" ]})
      | None =>
          let* df := lift (reset_index df) in
          let* date := lift (getitem df "Date") in
          let* date := lift (to_datetime date) in
          let df := setitem df "Date" date in
          let fig := go_Figure in
          let* x_ := lift (getitem df "Date") in
          let* open_ := lift (getitem df "Open") in
          let* high_ := lift (getitem df "High") in
          let* low_ := lift (getitem df "Low") in
          let* close_ := lift (getitem df "Close") in
          let* candles :=
            lift (go_Candlestick x_ open_ high_ low_ close_ ticker) in
          let fig := add_trace candles fig in
          let fig :=
            update_layout
              [ ("title", PStr ("Candlestick Chart of " +:+ ticker));
                ("xaxis_title", PStr "Date");
                ("yaxis_title", PStr "Price (USD)");
                ("xaxis_rangeslider_visible", PBool false);
                ("template", PStr "plotly_dark") ]
              fig in
          Ret (fig, {[ "visibility" := PStr "visible" ]})
      end.

End RealTimeStockChart.

(** *** [real_time_stock_chart2.py] *)
Module RealTimeStockChart2.
Import YFinance.

Definition required_cols : list string := ["Open"; "High"; "Low"; "Close"].

(** [update_chart(n_clicks, ticker, start_date, end_date)] *)
Definition update_chart (n_clicks : option Z) (ticker : string)
  (start_date end_date : option string)
  : Prog (Figure trace * gmap string pyval) :=
  if negb (truthy n_clicks) then
    Ret (go_Figure, <["flex" := PInt 1]> {[ "visibility" := PStr "hidden" ]})
  else
    let* df := download ticker start_date end_date "column" in
    if empty df then
      let fig := go_Figure in
      let fig :=
        update_layout
          [ ("title", PStr "No data returned for this ticker or date range.");
            ("template", PStr "plotly_dark") ]
          fig in
      Ret (fig, <["flex" := PInt 1]> {[ "visibility" := PStr "visible" ]})
    else
      let df :=
        if is_MultiIndex (columns df)
        then set_columns (get_level_values_0 (columns df)) df
        else df in
      match first_missing required_cols (columns df) with
      | Some col =>
          let fig := go_Figure in
          let fig :=
            update_layout
              [ ("title",
                 PStr ("Missing '" +:+ col +:+ "' data for " +:+ ticker +:+ "."));
                ("template", PStr "plotly_dark") ]
              fig in
          Ret (fig, <["flex" := PInt 1]> {[ "visibility" := PStr "visible" ]})
      | None =>
          let* df := lift (reset_index df) in
          let* x_ := lift (getitem df "Date") in
          let* open_ := lift (getitem df "Open") in
          let* high_ := lift (getitem df "High") in
          let* low_ := lift (getitem df "Low") in
          let* close_ := lift (getitem df "Close") in
          let* candles :=
            lift (go_Candlestick x_ open_ high_ low_ close_ (upper ticker)) in
          let fig := go_Figure_data [candles] in
          let fig :=
            update_layout
              [ ("title", PStr ("Candlestick Chart of " +:+ upper ticker));
                ("xaxis_title", PStr "Date");
                ("yaxis_title", PStr "Price (USD)");
                ("xaxis_rangeslider_visible", PBool false);
                ("template", PStr "plotly_dark") ]
              fig in
          Ret (fig, <["flex" := PInt 1]> {[ "visibility" := PStr "visible" ]})
      end.

End RealTimeStockChart2.

(** ** project4: the housing table and its histogram *)
Module TableAndFigureApp.

(** [df = pd.read_csv('housing2.csv')]: labelled columns of numbers. *)
Definition DataFrame : Type := list (string * list (option Q)).

(** A trace of [px.histogram] keeps the frame and the column it counts. *)
Inductive trace : Type :=
| Histogram (data_frame : DataFrame) (x : string).

#[export] Instance trace_kind : TraceKind trace := λ _, KHistogram.

(** [px.histogram(df, x=x)]: for a label, one histogram of that column,
    and a refusal when the frame has no such column; for [None], which asks
    for nothing in particular, plotly express reads the frame in wide form
    and counts every column of numbers, each in a trace of its own. *)
Definition px_histogram (df : DataFrame) (x : option string)
  : result (Figure trace) :=
  match x with
  | Some col =>
      if bool_decide (col ∈ df.*1)
      then Ok (go_Figure_data [Histogram df col])
      else Raised (ValueError "not the name of a column in 'data_frame'")
  | None => Ok (go_Figure_data (Histogram df <$> df.*1))
  end.

(** [f'{selected_feature}'] *)
Definition format (selected_feature : option string) : string :=
  default "None" selected_feature.

(** A label or [None] as the value of a keyword; a property that is given
    [None] is cleared and reads [None] from then on. *)
Definition keyword (selected_feature : option string) : pyval :=
  from_option PStr PNone selected_feature.

(** [update_histogram(selected_feature)] over the module-level [df]. The
    dropdown sends the label of the chosen column, and [None] once the
    choice is cleared. *)
Definition update_histogram (df : DataFrame) (selected_feature : option string)
  : result (Figure trace) :=
  bind_result (px_histogram df selected_feature)
    (λ fig,
       Ok (update_layout
             [ ("title", PStr ("Histogram of " +:+ format selected_feature));
               ("xaxis_title", keyword selected_feature);
               ("yaxis_title", PStr "Frequency") ]
             fig)).

(** The callback as the server runs it: the table is a global that the
    callback reads and leaves as it is. *)
Record app_state : Type := mkState { df : DataFrame }.

Definition histogram_callback (selected_feature : option string)
  : app_state → result (Figure trace) * app_state :=
  λ st, (update_histogram (df st) selected_feature, st).

End TableAndFigureApp.

(** ** The vocabulary of the contracts *)

(** The visibility that a container style sets. *)
Definition visibility (style : gmap string pyval) : option pyval :=
  style !! "visibility".

Module Contract.
Import YFinance.

(** The request that a submission issues. *)
Definition submitted (ticker : string) (start_date end_date : option string)
  : request :=
  mkRequest ticker start_date end_date "column".

(** The four price fields that both callbacks require, in the order in
    which they check them. *)
Definition required_columns : list string := ["Open"; "High"; "Low"; "Close"].

(** The columns of a frame once a two-level index has been collapsed to
    its first level. *)
Definition normalized_columns (df : PriceFrame) : column_index :=
  if is_MultiIndex (columns df) then get_level_values_0 (columns df)
  else columns df.

(** The two ways in which a submission fails. *)
Inductive failure : Type :=
| EmptyDataset
| MissingColumn (name : string).

Definition failure_of (df : PriceFrame) : option failure :=
  if empty df then Some EmptyDataset
  else MissingColumn <$> first_missing required_columns (normalized_columns df).

(** The titles with which each version reports a failure. *)
Definition failure_title (f : failure) (ticker : string) : string :=
  match f with
  | EmptyDataset => "No data returned for this ticker/date range"
  | MissingColumn col => "Missing '" +:+ col +:+ "' data for " +:+ ticker
  end.

Definition failure_title2 (f : failure) (ticker : string) : string :=
  match f with
  | EmptyDataset => "No data returned for this ticker or date range."
  | MissingColumn col =>
      "Missing '" +:+ col +:+ "' data for " +:+ ticker +:+ "."
  end.

(** The figures with which each version reports a failure. *)
Definition failure_figure (f : failure) (ticker : string) : Figure trace :=
  update_layout
    [ ("title", PStr (failure_title f ticker));
      ("template", PStr "plotly_dark");
      ("xaxis_title", PStr "Date");
      ("yaxis_title", PStr "Price (USD)") ]
    go_Figure.

Definition failure_figure2 (f : failure) (ticker : string) : Figure trace :=
  update_layout
    [ ("title", PStr (failure_title2 f ticker));
      ("template", PStr "plotly_dark") ]
    go_Figure.

(** The frame that reaches [reset_index] in either version. *)
Definition normalized (df : PriceFrame) : PriceFrame :=
  if is_MultiIndex (columns df)
  then set_columns (get_level_values_0 (columns df)) df
  else df.

(** A callback result that shows the user a failure: it is returned, not
    raised; the chart has no series; its title is the given non-empty
    text; the container is visible. *)
Definition reports (o : result (Figure trace * gmap string pyval))
  (title_ : string) : Prop :=
  ∃ fig style,
    o = Ok (fig, style)
    ∧ data fig = []
    ∧ title fig = Some (PStr title_)
    ∧ title_ ≠ ""
    ∧ visibility style = Some (PStr "visible").

(** The series of a candlestick trace, without its name. *)
Definition series_of (t : trace)
  : list series * list series * list series * list series * list series :=
  (x t, open t, high t, low t, close t).

End Contract.

(** A callback over a process state is repeatable when it leaves the state
    as it found it and returns the same value when invoked again. *)
Definition repeatable {S A} (cb : S → A * S) : Prop :=
  ∀ st, (cb st).2 = st ∧ (cb (cb st).2).1 = (cb st).1.

Module Ranking.
Import Gapminder.

(** Descending order of a metric: [a] may stand before [b]. *)
Definition descending (key : row → Q) : relation row :=
  λ a b, (key b <= key a)%Q.

Definition ascending (key : row → Q) : relation row :=
  λ a b, (key a <= key b)%Q.

#[export] Instance Qle_dec (a b : Q) : Decision (a <= b)%Q :=
  decide (Qnum a * QDen b ≤ Qnum b * QDen a).

#[export] Instance Qeq_dec (a b : Q) : Decision (a == b)%Q :=
  decide (Qnum a * QDen b = Qnum b * QDen a).

#[export] Instance descending_dec key a b : Decision (descending key a b) :=
  Qle_dec (key b) (key a).

#[export] Instance ascending_dec key a b : Decision (ascending key a b) :=
  Qle_dec (key a) (key b).

(** What pandas documents of [sort_values(by=, ascending=False)]: the
    rows are reordered, and a numeric column stands in descending
    order. *)
Definition reorders (sort_values : string → bool → list row → list row)
  : Prop :=
  ∀ by_ asc df, sort_values by_ asc df ≡ₚ df.

Definition sorts_descending
  (sort_values : string → bool → list row → list row) : Prop :=
  ∀ by_ key df, numeric_column by_ = Some key →
    Sorted (descending key) (sort_values by_ false df).

(** What the ranked bar chart promises of the rows it plots. *)
Definition ranked (key : row → Q) (continent : string) (year : Z)
  (rows : list row) : Prop :=
  (length rows ≤ 15)%nat
  ∧ StronglySorted (descending key) rows
  ∧ Forall (λ r, Continent r = continent ∧ Year r = year) rows.

(** No two of the rows share a value of the metric. *)
Definition no_ties (key : row → Q) (rows : list row) : Prop :=
  ∀ a b, a ∈ rows → b ∈ rows → (key a == key b)%Q → a = b.

(** Two functions that both meet the documentation, to show that it can
    be met and that more than one function meets it: a merge sort, and a
    sort that puts rows in ascending order and then turns the result
    around. Neither is the sort that pandas runs. *)
Definition merge_sort_values (by_ : string) (asc : bool) (df : list row)
  : list row :=
  match numeric_column by_ with
  | Some key =>
      if asc then merge_sort (ascending key) df
      else merge_sort (descending key) df
  | None => df
  end.

Definition reversing_sort_values (by_ : string) (asc : bool)
  (df : list row) : list row :=
  match numeric_column by_ with
  | Some key =>
      if asc then reverse (merge_sort (descending key) df)
      else reverse (merge_sort (ascending key) df)
  | None => df
  end.

(** A small table: three Asian countries in 1952, two of them with the
    same population and the same life expectancy, one European row and
    one row of another year. *)
Definition sample_row (country continent : string) (year : Z)
  (life_exp : Q) (pop : Z) (gdp : Q) (iso : string) : row :=
  mkRow country continent year life_exp pop gdp iso 0 0 0.

Definition alpha : row :=
  sample_row "Alpha" "Asia" 1952 (40 # 1) 100 (500 # 1) "ALP".
Definition beta : row :=
  sample_row "Beta" "Asia" 1952 (40 # 1) 100 (700 # 1) "BET".
Definition gamma : row :=
  sample_row "Gamma" "Asia" 1952 (45 # 1) 200 (600 # 1) "GAM".
Definition delta : row :=
  sample_row "Delta" "Europe" 1952 (60 # 1) 50 (900 # 1) "DEL".
Definition alpha57 : row :=
  sample_row "Alpha" "Asia" 1957 (42 # 1) 110 (550 # 1) "ALP".

Definition sample_df : list row := [alpha; beta; gamma; delta; alpha57].

End Ranking.

(** Sample price histories for the candlestick callbacks. *)
Module Samples.
Import YFinance.

(** No trading day at all. *)
Definition no_rows : PriceFrame :=
  mkPriceFrame (Some "Date") []
    (MultiIndex [("Close", "ZZZZ"); ("High", "ZZZZ"); ("Low", "ZZZZ");
                 ("Open", "ZZZZ"); ("Volume", "ZZZZ")])
    [[]; []; []; []; []].

Definition two_days : list (option Q) := [Some (150 # 1); Some (152 # 1)].

(** Two trading days, without the [Low] column. *)
Definition no_low : PriceFrame :=
  mkPriceFrame (Some "Date") [19358; 19359]
    (MultiIndex [("Close", "AAPL"); ("High", "AAPL"); ("Open", "AAPL")])
    [two_days; two_days; two_days].

(** Two trading days, with neither [High] nor [Close]. *)
Definition no_high_no_close : PriceFrame :=
  mkPriceFrame (Some "Date") [19358; 19359]
    (Index ["Open"; "Low"; "Volume"])
    [two_days; two_days; two_days].

(** Two trading days with all the fields. *)
Definition full : PriceFrame :=
  mkPriceFrame (Some "Date") [19358; 19359]
    (MultiIndex [("Close", "AAPL"); ("High", "AAPL"); ("Low", "AAPL");
                 ("Open", "AAPL"); ("Volume", "AAPL")])
    [two_days; two_days; two_days; two_days; two_days].

(** A housing table of two columns. *)
Definition housing : TableAndFigureApp.DataFrame :=
  [ ("MedInc", [Some (83 # 10); Some (72 # 10)]);
    ("HouseAge", [Some (41 # 1); Some (21 # 1)]) ].

End Samples.

(** ** The widgets and the layouts around the callbacks *)

(** *** project6: the dropdowns of the tabs *)
Module Widgets.
Import Gapminder.

(** [Series.unique()]: the values, each once, in order of first
    appearance. *)
Fixpoint unique {A} `{EqDecision A} (l : list A) : list A :=
  match l with
  | [] => []
  | x :: l' => x :: filter (λ y, y ≠ x) (unique l')
  end.

(** [continents = gapminder_df["Continent"].unique()] *)
Definition continents (gapminder_df : list row) : list string :=
  unique (Continent <$> gapminder_df).

(** [years = gapminder_df["Year"].unique()] *)
Definition years (gapminder_df : list row) : list Z :=
  unique (Year <$> gapminder_df).

(** [dcc.Dropdown(id=, options=, value=, clearable=)] *)
Record Dropdown (V : Type) : Type := mkDropdown {
  dd_id : string;
  dd_options : list V;
  dd_value : V;
  dd_clearable : bool
}.
Arguments mkDropdown {V} dd_id dd_options dd_value dd_clearable.
Arguments dd_id {V} d.
Arguments dd_options {V} d.
Arguments dd_value {V} d.
Arguments dd_clearable {V} d.

Definition cont_population (gapminder_df : list row) : Dropdown string :=
  mkDropdown "cont_pop" (continents gapminder_df) "Asia" false.

Definition year_population (gapminder_df : list row) : Dropdown Z :=
  mkDropdown "year_pop" (years gapminder_df) 1952 false.

Definition cont_gdp (gapminder_df : list row) : Dropdown string :=
  mkDropdown "cont_gdp" (continents gapminder_df) "Asia" false.

Definition year_gdp (gapminder_df : list row) : Dropdown Z :=
  mkDropdown "year_gdp" (years gapminder_df) 1952 false.

Definition cont_life_exp (gapminder_df : list row) : Dropdown string :=
  mkDropdown "cont_life_exp" (continents gapminder_df) "Asia" false.

Definition year_life_exp (gapminder_df : list row) : Dropdown Z :=
  mkDropdown "year_life_exp" (years gapminder_df) 1952 false.

Definition year_map (gapminder_df : list row) : Dropdown Z :=
  mkDropdown "year_map" (years gapminder_df) 1952 false.

Definition var_map : Dropdown string :=
  mkDropdown "var_map" ["Population"; "GDP per Capita"; "Life Expectancy"]
    "Life Expectancy" false.

(** The three bar tabs: the column that each ranks by and its builder. *)
Definition bar_builders (sort_values : string → bool → list row → list row)
  : list (string * (list row → string → Z → result (Figure trace))) :=
  [ ("Population", create_population_chart sort_values);
    ("GDP per Capita", create_gdp_chart sort_values);
    ("Life Expectancy", create_life_exp_chart sort_values) ].

End Widgets.

(** *** project5: the chart container and the drawing of the candles *)
Module StockLayout.
Import YFinance.

(** The [style] of [html.Div(id='chart-container', ...)] in
    [real_time_stock_chart.py]. *)
Definition chart_container_style : gmap string pyval :=
  {[ "visibility" := PStr "hidden" ]}.

(** The same in [real_time_stock_chart2.py]. *)
Definition chart_container_style2 : gmap string pyval :=
  <["flex" := PInt 1]>
    (<["visibility" := PStr "hidden"]> {[ "paddingRight" := PStr "20px" ]}).

(** The four lookups [df['Open']], [df['High']], [df['Low']],
    [df['Close']] of the candlestick trace, in that order. *)
Definition ohlc (df : Table)
  : result (list series * list series * list series * list series) :=
  bind_result (getitem df "Open") (λ open_,
  bind_result (getitem df "High") (λ high_,
  bind_result (getitem df "Low") (λ low_,
  bind_result (getitem df "Close") (λ close_,
  Ok (open_, high_, low_, close_))))).

(** The keyword arguments of the last [update_layout] of either version,
    for the name under which the ticker is shown. *)
Definition candlestick_layout (shown : string) : list (string * pyval) :=
  [ ("title", PStr ("Candlestick Chart of " +:+ shown));
    ("xaxis_title", PStr "Date");
    ("yaxis_title", PStr "Price (USD)");
    ("xaxis_rangeslider_visible", PBool false);
    ("template", PStr "plotly_dark") ].

(** The result of a submission whose frame passed the checks and was
    re-indexed into [df], with the ticker shown as [shown]. *)
Definition drawn (df : Table) (dates : list Z) (shown : string)
  (style : gmap string pyval)
  : result (Figure trace * gmap string pyval) :=
  bind_result (ohlc df) (λ s,
    let '(open_, high_, low_, close_) := s in
    bind_result
      (go_Candlestick [Datetimes dates] open_ high_ low_ close_ shown)
      (λ candles,
         Ok (update_layout (candlestick_layout shown)
               (go_Figure_data [candles]),
             style))).

(** What either version does once the checks have passed, as a
    computation that returns or raises: [df.reset_index()], in the first
    version [df['Date'] = pd.to_datetime(df['Date'])], then the trace and
    the layout. *)
Definition draw (df : PriceFrame) (ticker : string)
  : result (Figure trace * gmap string pyval) :=
  bind_result (reset_index df) (λ df,
  bind_result (getitem df "Date") (λ date,
  bind_result (to_datetime date) (λ date,
  let df := setitem df "Date" date in
  bind_result (getitem df "Date") (λ x_,
  bind_result (ohlc df) (λ s,
    let '(open_, high_, low_, close_) := s in
    bind_result (go_Candlestick x_ open_ high_ low_ close_ ticker)
      (λ candles,
         Ok (update_layout (candlestick_layout ticker)
               (add_trace candles go_Figure),
             {[ "visibility" := PStr "visible" ]}))))))).

Definition draw2 (df : PriceFrame) (ticker : string)
  : result (Figure trace * gmap string pyval) :=
  bind_result (reset_index df) (λ df,
  bind_result (getitem df "Date") (λ x_,
  bind_result (ohlc df) (λ s,
    let '(open_, high_, low_, close_) := s in
    bind_result (go_Candlestick x_ open_ high_ low_ close_ (upper ticker))
      (λ candles,
         Ok (update_layout (candlestick_layout (upper ticker))
               (go_Figure_data [candles]),
             <["flex" := PInt 1]> {[ "visibility" := PStr "visible" ]}))))).

(** A string of ASCII characters, on which [upper] is [str.upper]. *)
Definition ascii_only (s : string) : Prop :=
  Forall (λ a, (nat_of_ascii a < 128)%nat) (String.list_ascii_of_string s).


(** The frame as [reset_index] leaves it when the index is named [Date]. *)
Definition dated (df : PriceFrame) : Table :=
  ("Date", Datetimes (index df))
    :: zip (labels_of (columns df)) (Floats <$> values df).

(** The lines that the first version prints for a frame. *)
Definition printed (df : PriceFrame) : list line :=
  [DownloadedRows (len df); OriginalColumns (columns df)]
    ++ (if negb (empty df) && is_MultiIndex (columns df)
        then [SimplifiedColumns (get_level_values_0 (columns df))]
        else []).

(** A frame with one more column of prices at its right. *)
Definition with_column (df : PriceFrame) (label : string)
  (prices : list (option Q)) : PriceFrame :=
  mkPriceFrame (index_name df) (index df)
    (Index (labels_of (columns df) ++ [label]))
    (values df ++ [prices]).

End StockLayout.

(** *** project4: the feature dropdown *)
Module HousingLayout.
Import TableAndFigureApp.

(** [options=[{'label': col, 'value': col} for col in df.columns]] *)
Definition feature_options (df : DataFrame) : list (string * string) :=
  (λ col, (col, col)) <$> df.*1.

(** [value=df.columns[0]]; [None] stands for the [IndexError] of a frame
    without columns. *)
Definition feature_default (df : DataFrame) : option string :=
  df.*1 !! 0%nat.

End HousingLayout.

(** More sample inputs. *)
Module MoreSamples.
Import YFinance.

(** Two bars of an intraday download, whose index is named [Datetime]. *)
Definition intraday : PriceFrame :=
  mkPriceFrame (Some "Datetime") [1672756200; 1672756260]
    (Index ["Open"; "High"; "Low"; "Close"])
    [Samples.two_days; Samples.two_days; Samples.two_days; Samples.two_days].

(** Two trading days with a column that is itself labelled [Date]. *)
Definition date_column : PriceFrame :=
  mkPriceFrame (Some "Date") [19358; 19359]
    (Index ["Date"; "Open"; "High"; "Low"; "Close"])
    [Samples.two_days; Samples.two_days; Samples.two_days; Samples.two_days;
     Samples.two_days].

(** Two trading days of two tickers: each field is there once per
    ticker. *)
Definition two_tickers : PriceFrame :=
  mkPriceFrame (Some "Date") [19358; 19359]
    (MultiIndex [("Close", "AAPL"); ("Close", "MSFT");
                 ("High", "AAPL"); ("High", "MSFT");
                 ("Low", "AAPL"); ("Low", "MSFT");
                 ("Open", "AAPL"); ("Open", "MSFT")])
    [Samples.two_days; Samples.two_days; Samples.two_days; Samples.two_days;
     Samples.two_days; Samples.two_days; Samples.two_days; Samples.two_days].

(** A download that returns the same frame for every request. *)
Definition answering (df : PriceFrame) : request → result PriceFrame :=
  λ _, Ok df.

(** A download that raises for every request. *)
Definition refusing (e : exn) : request → result PriceFrame :=
  λ _, Raised e.

(** Two trading days, single-level columns, all the fields. *)
Definition flat : PriceFrame :=
  mkPriceFrame (Some "Date") [19358; 19359]
    (Index ["Open"; "High"; "Low"; "Close"])
    [Samples.two_days; Samples.two_days; Samples.two_days; Samples.two_days].

End MoreSamples.

(** * The contracts of the Gapminder builders *)

#[global] Instance descending_trans key : Transitive (Ranking.descending key).
Proof.
  intros a b c Hab Hbc. unfold Ranking.descending in *. by eapply Qle_trans.
Qed.

#[global] Instance descending_total key : Total (Ranking.descending key).
Proof. intros a b. unfold Ranking.descending, Qle. lia. Qed.

#[global] Instance ascending_total key : Total (Ranking.ascending key).
Proof. intros a b. unfold Ranking.ascending, Qle. lia. Qed.

Section SortInstances.
Import Gapminder Ranking.

Lemma merge_sort_values_reorders : reorders merge_sort_values.
Proof.
  intros by_ asc df. unfold merge_sort_values.
  destruct (numeric_column by_); [|done].
  destruct asc; apply merge_sort_Permutation.
Qed.

Lemma merge_sort_values_descending : sorts_descending merge_sort_values.
Proof.
  intros by_ key df Hkey. unfold merge_sort_values. rewrite Hkey.
  apply Sorted_merge_sort, _.
Qed.

Lemma reversing_sort_values_reorders : reorders reversing_sort_values.
Proof.
  intros by_ asc df. unfold reversing_sort_values.
  destruct (numeric_column by_); [|done].
  destruct asc; rewrite reverse_Permutation; apply merge_sort_Permutation.
Qed.

Lemma reversing_sort_values_descending : sorts_descending reversing_sort_values.
Proof.
  intros by_ key df Hkey. unfold reversing_sort_values. rewrite Hkey.
  apply (Sorted_reverse (ascending key)), Sorted_merge_sort, _.
Qed.

(** The three Asian rows of 1952 have three different incomes. *)
Lemma sample_gdp_no_ties :
  no_ties GDP_per_Capita (select_continent_year sample_df "Asia" 1952).
Proof.
  assert (select_continent_year sample_df "Asia" 1952 = [alpha; beta; gamma])
    as -> by reflexivity.
  intros a b Ha Hb Hab.
  repeat (apply elem_of_cons in Ha as [->|Ha]);
    repeat (apply elem_of_cons in Hb as [->|Hb]);
    try done; try (by apply elem_of_nil in Ha); try (by apply elem_of_nil in Hb);
    vm_compute in Hab; discriminate Hab.
Qed.
End SortInstances.

Section BarBuilders.
Import Gapminder Ranking.

Lemma px_bar_ok df y title_ :
  y ∈ columns →
  px_bar df "Country" y "Country" title_ true
  = Ok (mkFigure [Bar df "Country" y "Country" true]
                 {[ "title" := PStr title_ ]}).
Proof.
  intros Hy. unfold px_bar. destruct (decide _) as [|Hn]; [done|].
  exfalso. apply Hn. repeat split; [|done|]; unfold columns; repeat constructor.
Qed.

Context (sort_values : string → bool → list row → list row).

Lemma population_chart_rows df continent year :
  ∃ fig, create_population_chart sort_values df continent year = Ok fig
    ∧ figure_rows fig
      = take 15 (sort_values "Population" false
                   (select_continent_year df continent year)).
Proof.
  unfold create_population_chart.
  rewrite px_bar_ok by (unfold columns; repeat constructor).
  eexists. split; [done|]. unfold figure_rows. simpl. by rewrite app_nil_r.
Qed.

Lemma gdp_chart_rows df continent year :
  ∃ fig, create_gdp_chart sort_values df continent year = Ok fig
    ∧ figure_rows fig
      = take 15 (sort_values "GDP per Capita" false
                   (select_continent_year df continent year)).
Proof.
  unfold create_gdp_chart.
  rewrite px_bar_ok by (unfold columns; repeat constructor).
  eexists. split; [done|]. unfold figure_rows. simpl. by rewrite app_nil_r.
Qed.

Lemma life_exp_chart_rows df continent year :
  ∃ fig, create_life_exp_chart sort_values df continent year = Ok fig
    ∧ figure_rows fig
      = take 15 (sort_values "Life Expectancy" false
                   (select_continent_year df continent year)).
Proof.
  unfold create_life_exp_chart.
  rewrite px_bar_ok by (unfold columns; repeat constructor).
  eexists. split; [done|]. unfold figure_rows. simpl. by rewrite app_nil_r.
Qed.

Hypothesis sort_values_reorders : reorders sort_values.
Hypothesis sort_values_descending : sorts_descending sort_values.

Lemma top15_ranked by_ key df continent year :
  numeric_column by_ = Some key →
  ranked key continent year
    (take 15 (sort_values by_ false (select_continent_year df continent year))).
Proof.
  intros Hkey. repeat split.
  - rewrite length_take. lia.
  - apply (StronglySorted_app_1_l _ _ (drop 15 (sort_values by_ false
             (select_continent_year df continent year)))).
    rewrite take_drop. apply Sorted_StronglySorted; [apply _|].
    by apply sort_values_descending.
  - apply Forall_take.
    rewrite (sort_values_reorders by_ false
               (select_continent_year df continent year)).
    apply Forall_forall. intros r Hr. unfold select_continent_year in Hr.
    by apply list_elem_of_filter in Hr as [? _].
Qed.

(** C1. For every continent and year, hence for every pair present in the
    table, each of the three bar builders returns a chart of at most 15
    rows, in descending order of the builder's metric, all of the
    requested continent and year. [sort_values] is any function that
    reorders the rows and leaves a numeric column in descending order. *)
Theorem top15_bars_ranked gapminder_df continent year :
  (∃ fig,
     create_population_chart sort_values gapminder_df continent year = Ok fig
     ∧ ranked (λ r, inject_Z (Population r)) continent year (figure_rows fig))
  ∧ (∃ fig,
       create_gdp_chart sort_values gapminder_df continent year = Ok fig
       ∧ ranked GDP_per_Capita continent year (figure_rows fig))
  ∧ (∃ fig,
       create_life_exp_chart sort_values gapminder_df continent year = Ok fig
       ∧ ranked Life_Expectancy continent year (figure_rows fig)).
Proof.
  split; [|split].
  - destruct (population_chart_rows gapminder_df continent year)
      as (fig & Hfig & Hrows).
    exists fig. split; [done|]. rewrite Hrows. by apply top15_ranked.
  - destruct (gdp_chart_rows gapminder_df continent year)
      as (fig & Hfig & Hrows).
    exists fig. split; [done|]. rewrite Hrows. by apply top15_ranked.
  - destruct (life_exp_chart_rows gapminder_df continent year)
      as (fig & Hfig & Hrows).
    exists fig. split; [done|]. rewrite Hrows. by apply top15_ranked.
Qed.
End BarBuilders.

Lemma top15_bars_ranked_witness :
  Ranking.reorders Ranking.merge_sort_values
  ∧ Ranking.sorts_descending Ranking.merge_sort_values
  ∧ (∃ fig,
       Gapminder.create_population_chart Ranking.merge_sort_values
         Ranking.sample_df "Asia" 1952 = Ok fig
       ∧ Ranking.ranked (λ r, inject_Z (Gapminder.Population r)) "Asia" 1952
           (Gapminder.figure_rows fig)).
Proof.
  split; [exact merge_sort_values_reorders|].
  split; [exact merge_sort_values_descending|].
  exact (proj1 (top15_bars_ranked Ranking.merge_sort_values
                  merge_sort_values_reorders merge_sort_values_descending
                  Ranking.sample_df "Asia" 1952)).
Defined.

Section Choropleth.
Import Gapminder.

(** C5. For every year and variable, the choropleth builder either
    refuses a variable that is no column of the table, or returns a chart
    that plots the rows of the table whose year is the requested one, and
    no other row. *)
Theorem choropleth_rows_of_year gapminder_df variable year :
  match create_choropleth_map gapminder_df variable year with
  | Ok fig =>
      variable ∈ columns
      ∧ figure_rows fig = select_year gapminder_df year
      ∧ ∀ r, r ∈ figure_rows fig ↔ r ∈ gapminder_df ∧ Year r = year
  | Raised _ => variable ∉ columns
  end.
Proof.
  unfold create_choropleth_map, px_choropleth.
  destruct (decide _) as [(Hv & _ & _)|Hn]; simpl.
  - split; [done|]. unfold figure_rows. simpl. rewrite app_nil_r.
    split; [done|]. intros r. unfold select_year.
    rewrite list_elem_of_filter. tauto.
  - intros Hv. apply Hn. split; [done|].
    split; [unfold columns; repeat constructor|].
    apply Forall_cons; split; [unfold columns; repeat constructor|].
    apply Forall_cons; split; [done | apply Forall_nil_2].
Qed.
End Choropleth.

Section Ties.
Import Gapminder Ranking.

Context (sort1 sort2 : string → bool → list row → list row).
Hypothesis reorders1 : reorders sort1.
Hypothesis descending1 : sorts_descending sort1.
Hypothesis reorders2 : reorders sort2.
Hypothesis descending2 : sorts_descending sort2.

Lemma sorts_agree_without_ties by_ key rows :
  numeric_column by_ = Some key → no_ties key rows →
  sort1 by_ false rows = sort2 by_ false rows.
Proof.
  intros Hkey Hties.
  apply (Sorted_unique_strong (descending key)).
  - intros a b Ha Hb Hab Hba.
    rewrite (reorders1 by_ false rows) in Ha.
    rewrite (reorders2 by_ false rows) in Hb.
    apply Hties; [done..|]. by apply Qle_antisym.
  - by apply descending1.
  - by apply descending2.
  - by rewrite (reorders1 by_ false rows), (reorders2 by_ false rows).
Qed.

(** X19. When no two selected rows share a value of the metric, the chart
    of a bar builder is the same for every sort that meets the
    documentation of [sort_values]: the builders rely on nothing else of
    pandas there. *)
Theorem ranking_determined_without_ties gapminder_df continent year :
  let selected := select_continent_year gapminder_df continent year in
  (no_ties (λ r, inject_Z (Population r)) selected →
     create_population_chart sort1 gapminder_df continent year
     = create_population_chart sort2 gapminder_df continent year)
  ∧ (no_ties GDP_per_Capita selected →
     create_gdp_chart sort1 gapminder_df continent year
     = create_gdp_chart sort2 gapminder_df continent year)
  ∧ (no_ties Life_Expectancy selected →
     create_life_exp_chart sort1 gapminder_df continent year
     = create_life_exp_chart sort2 gapminder_df continent year).
Proof.
  intros selected. subst selected. repeat split; intros Hties.
  - unfold create_population_chart.
    by rewrite (sorts_agree_without_ties "Population" _ _ eq_refl Hties).
  - unfold create_gdp_chart.
    by rewrite (sorts_agree_without_ties "GDP per Capita" _ _ eq_refl Hties).
  - unfold create_life_exp_chart.
    by rewrite (sorts_agree_without_ties "Life Expectancy" _ _ eq_refl Hties).
Qed.
End Ties.

Lemma ranking_determined_without_ties_witness :
  Ranking.no_ties Gapminder.GDP_per_Capita
    (Gapminder.select_continent_year Ranking.sample_df "Asia" 1952)
  ∧ Gapminder.create_gdp_chart Ranking.merge_sort_values
      Ranking.sample_df "Asia" 1952
    = Gapminder.create_gdp_chart Ranking.reversing_sort_values
        Ranking.sample_df "Asia" 1952.
Proof.
  split; [exact sample_gdp_no_ties|].
  exact (proj1 (proj2 (ranking_determined_without_ties
                         Ranking.merge_sort_values Ranking.reversing_sort_values
                         merge_sort_values_reorders merge_sort_values_descending
                         reversing_sort_values_reorders
                         reversing_sort_values_descending
                         Ranking.sample_df "Asia" 1952))
           sample_gdp_no_ties).
Defined.

(** * The contracts of the candlestick callbacks *)

Section Submission.
Import YFinance Contract.

Lemma truthy_positive n : 1 ≤ n → truthy (Some n) = true.
Proof. intros Hn. unfold truthy. destruct (Z.eqb_spec n 0); [lia | done]. Qed.

Lemma truthy_initial n_clicks :
  n_clicks = None ∨ n_clicks = Some 0 → truthy n_clicks = false.
Proof. by intros [-> | ->]. Qed.

(** The loop stops at the first required column that is missing. *)
Lemma first_missing_prefix pre col post c :
  Forall (λ p, contains c p = true) pre → contains c col = false →
  first_missing (pre ++ col :: post) c = Some col.
Proof.
  intros Hpre Hcol. induction Hpre as [|p pre Hp _ IH]; simpl.
  - by rewrite Hcol.
  - by rewrite Hp.
Qed.

Lemma first_missing_only required col c :
  col ∈ required → contains c col = false →
  (∀ p, p ∈ required → p ≠ col → contains c p = true) →
  first_missing required c = Some col.
Proof.
  intros Hin Hcol Hothers.
  induction required as [|p required IH]; [by apply elem_of_nil in Hin|].
  simpl. destruct (decide (p = col)) as [->|Hne].
  - by rewrite Hcol.
  - rewrite Hothers by (done || left). simpl.
    apply elem_of_cons in Hin as [->|Hin]; [done|].
    apply IH; [done|]. intros q Hq. apply Hothers. by right.
Qed.

Lemma failure_title_nonempty f ticker :
  failure_title f ticker ≠ "" ∧ failure_title2 f ticker ≠ "".
Proof. by destruct f. Qed.

Context (network : request → PriceFrame).

Lemma update_chart_failure n_clicks ticker start_date end_date f :
  truthy n_clicks = true →
  failure_of (network (submitted ticker start_date end_date)) = Some f →
  returned (run network
    (RealTimeStockChart.update_chart n_clicks ticker start_date end_date))
  = Ok (failure_figure f ticker, {[ "visibility" := PStr "visible" ]}).
Proof.
  intros Hn Hf. unfold RealTimeStockChart.update_chart, failure_of in *.
  rewrite Hn. cbn [negb bind download run returned print].
  fold (submitted ticker start_date end_date).
  destruct (empty _) eqn:He.
  { injection Hf as <-. done. }
  unfold normalized_columns in Hf.
  destruct (is_MultiIndex _) eqn:Hm;
    cbn [bind print run returned set_columns columns];
    fold required_columns;
    destruct (first_missing _ _) as [col|]; [|done| |done];
    injection Hf as <-; done.
Qed.

Lemma update_chart2_failure n_clicks ticker start_date end_date f :
  truthy n_clicks = true →
  failure_of (network (submitted ticker start_date end_date)) = Some f →
  returned (run network
    (RealTimeStockChart2.update_chart n_clicks ticker start_date end_date))
  = Ok (failure_figure2 f ticker,
        <["flex" := PInt 1]> {[ "visibility" := PStr "visible" ]}).
Proof.
  intros Hn Hf. unfold RealTimeStockChart2.update_chart, failure_of in *.
  rewrite Hn. cbn [negb bind download run returned print].
  fold (submitted ticker start_date end_date).
  destruct (empty _) eqn:He.
  { injection Hf as <-. done. }
  unfold normalized_columns in Hf.
  destruct (is_MultiIndex _) eqn:Hm;
    cbn [bind print run returned set_columns columns];
    change RealTimeStockChart2.required_cols with required_columns;
    destruct (first_missing _ _) as [col|]; [|done| |done];
    injection Hf as <-; done.
Qed.

(** Both versions report a failure under its title. *)
Lemma failure_reported n_clicks ticker start_date end_date f :
  truthy n_clicks = true →
  failure_of (network (submitted ticker start_date end_date)) = Some f →
  reports
    (returned (run network
       (RealTimeStockChart.update_chart n_clicks ticker start_date end_date)))
    (failure_title f ticker)
  ∧ reports
      (returned (run network
         (RealTimeStockChart2.update_chart n_clicks ticker start_date end_date)))
      (failure_title2 f ticker).
Proof.
  intros Hn Hf. destruct (failure_title_nonempty f ticker) as [Ht Ht2].
  split.
  - rewrite (update_chart_failure _ _ _ _ f) by done.
    eexists _, _. repeat split; done.
  - rewrite (update_chart2_failure _ _ _ _ f) by done.
    eexists _, _. repeat split; done.
Qed.

(** C2. After at least one submission, an empty fetch result makes
    either version return a chart without series, titled with the notice
    that no data was returned, in a visible container. *)
Theorem empty_fetch_reported n ticker start_date end_date :
  1 ≤ n →
  empty (network (submitted ticker start_date end_date)) = true →
  reports
    (returned (run network
       (RealTimeStockChart.update_chart (Some n) ticker start_date end_date)))
    "No data returned for this ticker/date range"
  ∧ reports
      (returned (run network
         (RealTimeStockChart2.update_chart (Some n) ticker start_date end_date)))
      "No data returned for this ticker or date range.".
Proof.
  intros Hn He.
  apply (failure_reported (Some n) ticker start_date end_date EmptyDataset).
  - by apply truthy_positive.
  - unfold failure_of. by rewrite He.
Qed.

(** C3. After at least one submission, a fetch result that is not empty
    and that lacks, once its columns are normalized, one of [Open],
    [High], [Low], [Close] and no other, makes either version return,
    not raise, a chart without series whose title names that column, in a
    visible container. *)
Theorem missing_column_reported n ticker start_date end_date col :
  let df := network (submitted ticker start_date end_date) in
  1 ≤ n →
  empty df = false →
  col ∈ required_columns →
  contains (normalized_columns df) col = false →
  (∀ c, c ∈ required_columns → c ≠ col →
        contains (normalized_columns df) c = true) →
  reports
    (returned (run network
       (RealTimeStockChart.update_chart (Some n) ticker start_date end_date)))
    ("Missing '" +:+ col +:+ "' data for " +:+ ticker)
  ∧ reports
      (returned (run network
         (RealTimeStockChart2.update_chart (Some n) ticker start_date end_date)))
      ("Missing '" +:+ col +:+ "' data for " +:+ ticker +:+ ".").
Proof.
  intros df Hn He Hin Hcol Hothers.
  apply (failure_reported (Some n) ticker start_date end_date
           (MissingColumn col)).
  - by apply truthy_positive.
  - unfold failure_of. fold df. rewrite He.
    by rewrite (first_missing_only required_columns col).
Qed.

(** C9. When several required columns are missing, the title names the
    first of them in the order [Open], [High], [Low], [Close]: the one
    before which every required column is present. *)
Theorem first_missing_column_reported n ticker start_date end_date
    pre col post :
  let df := network (submitted ticker start_date end_date) in
  1 ≤ n →
  empty df = false →
  required_columns = (pre ++ col :: post)%list →
  Forall (λ c, contains (normalized_columns df) c = true) pre →
  contains (normalized_columns df) col = false →
  reports
    (returned (run network
       (RealTimeStockChart.update_chart (Some n) ticker start_date end_date)))
    ("Missing '" +:+ col +:+ "' data for " +:+ ticker)
  ∧ reports
      (returned (run network
         (RealTimeStockChart2.update_chart (Some n) ticker start_date end_date)))
      ("Missing '" +:+ col +:+ "' data for " +:+ ticker +:+ ".").
Proof.
  intros df Hn He Hreq Hpre Hcol.
  apply (failure_reported (Some n) ticker start_date end_date
           (MissingColumn col)).
  - by apply truthy_positive.
  - unfold failure_of. fold df. rewrite He, Hreq.
    by rewrite (first_missing_prefix pre col post).
Qed.

(** C7, amended. On either failure the returned figure has no trace at
    all, hence no chart kind; its title tells the failure and its
    template is the dark one of the candlestick chart. *)
Theorem failure_chart_traceless_titled n ticker start_date end_date f :
  1 ≤ n →
  failure_of (network (submitted ticker start_date end_date)) = Some f →
  ∃ fig fig2 style style2,
    returned (run network
      (RealTimeStockChart.update_chart (Some n) ticker start_date end_date))
    = Ok (fig, style)
    ∧ returned (run network
        (RealTimeStockChart2.update_chart (Some n) ticker start_date end_date))
      = Ok (fig2, style2)
    ∧ data fig = [] ∧ data fig2 = []
    ∧ figure_kind fig = None ∧ figure_kind fig2 = None
    ∧ title fig = Some (PStr (failure_title f ticker))
    ∧ title fig2 = Some (PStr (failure_title2 f ticker))
    ∧ layout fig !! "template" = Some (PStr "plotly_dark")
    ∧ layout fig2 !! "template" = Some (PStr "plotly_dark").
Proof.
  intros Hn Hf. apply truthy_positive in Hn.
  rewrite (update_chart_failure _ _ _ _ f), (update_chart2_failure _ _ _ _ f)
    by done.
  eexists _, _, _, _. repeat split; done.
Qed.
End Submission.

Section InitialLoad.
Import YFinance Contract.

(** C4. On the initial page load, when [n_clicks] is absent or zero,
    either version returns the figure without trace or layout and a
    container style that hides the chart; the result is the same for
    every network, and no download is issued. *)
Theorem initial_load_hidden_without_fetch n_clicks ticker start_date end_date :
  n_clicks = None ∨ n_clicks = Some 0 →
  ∃ style style2,
    visibility style = Some (PStr "hidden")
    ∧ visibility style2 = Some (PStr "hidden")
    ∧ @data trace go_Figure = []
    ∧ ∀ network,
        run network
          (RealTimeStockChart.update_chart n_clicks ticker start_date end_date)
        = mkOutcome (Ok (go_Figure, style)) [] []
        ∧ run network
            (RealTimeStockChart2.update_chart n_clicks ticker start_date end_date)
          = mkOutcome (Ok (go_Figure, style2)) [] [].
Proof.
  intros Hn. apply truthy_initial in Hn.
  eexists _, _. split; [|split; [|split; [done|]]]; cycle 2.
  - intros network.
    unfold RealTimeStockChart.update_chart, RealTimeStockChart2.update_chart.
    rewrite Hn. split; reflexivity.
  - reflexivity.
  - reflexivity.
Qed.

(** C7, as stated, fails: for a ticker without any trading day the
    returned figure has no trace, so it is of no chart kind, and in
    particular not a candlestick chart. *)
Lemma failure_chart_kind_counterexample :
  ∃ fig style,
    returned (run (λ _, Samples.no_rows)
      (RealTimeStockChart.update_chart (Some 1) "ZZZZ"
         (Some "2023-01-01") (Some "2025-01-01")))
    = Ok (fig, style)
    ∧ failure_of Samples.no_rows = Some EmptyDataset
    ∧ figure_kind fig = None
    ∧ figure_kind fig ≠ Some KCandlestick.
Proof. eexists _, _. repeat split; [reflexivity..|discriminate]. Qed.

(** C10, as stated, fails: on the initial load the two versions return
    different container styles, and for an empty fetch result they return
    figures with different titles. *)
Lemma update_chart_versions_differ :
  returned (run (λ _, Samples.no_rows)
    (RealTimeStockChart.update_chart None "AAPL" None None))
  ≠ returned (run (λ _, Samples.no_rows)
      (RealTimeStockChart2.update_chart None "AAPL" None None))
  ∧ returned (run (λ _, Samples.no_rows)
      (RealTimeStockChart.update_chart (Some 1) "AAPL" None None))
    ≠ returned (run (λ _, Samples.no_rows)
        (RealTimeStockChart2.update_chart (Some 1) "AAPL" None None)).
Proof.
  split; intros H.
  - apply (f_equal (λ r, match r with
                         | Ok (_, style) => style !! "flex"
                         | Raised _ => None
                         end)) in H.
    vm_compute in H. discriminate H.
  - apply (f_equal (λ r, match r with
                         | Ok (fig, _) => title fig
                         | Raised _ => None
                         end)) in H.
    vm_compute in H. discriminate H.
Qed.
End InitialLoad.

Section TwoVersions.
Import YFinance Contract.

Lemma filter_zip_fresh label labels (vs : list series) :
  label ∉ labels →
  filter (λ c : string * series, c.1 = label) (zip labels vs) = [].
Proof.
  revert vs. induction labels as [|l labels IH]; intros vs Hfresh; [done|].
  destruct vs as [|v vs]; [done|]. simpl.
  apply not_elem_of_cons in Hfresh as [Hne Hfresh].
  rewrite filter_cons_False by (simpl; congruence). by apply IH.
Qed.

Lemma fmap_zip_fresh label s labels (vs : list series) :
  label ∉ labels →
  (λ c : string * series, if decide (c.1 = label) then (label, s) else c)
    <$> zip labels vs = zip labels vs.
Proof.
  revert vs. induction labels as [|l labels IH]; intros vs Hfresh; [done|].
  destruct vs as [|v vs]; [done|]. simpl.
  apply not_elem_of_cons in Hfresh as [Hne Hfresh].
  rewrite decide_False by (simpl; congruence). f_equal. by apply IH.
Qed.

(** After [reset_index] of a frame indexed by [Date], the [Date] column
    is the index, and converting it to timestamps changes nothing. *)
Lemma getitem_Date idx labels (vs : list series) :
  "Date" ∉ labels →
  getitem (("Date", Datetimes idx) :: zip labels vs) "Date"
  = Ok [Datetimes idx].
Proof.
  intros Hfresh. unfold getitem.
  rewrite filter_cons_True by done. by rewrite filter_zip_fresh.
Qed.

Lemma setitem_Date idx labels (vs : list series) :
  "Date" ∉ labels →
  setitem (("Date", Datetimes idx) :: zip labels vs) "Date" (Datetimes idx)
  = ("Date", Datetimes idx) :: zip labels vs.
Proof.
  intros Hfresh. unfold setitem.
  rewrite bool_decide_true by (simpl; left).
  rewrite fmap_cons, decide_True by done. f_equal. by apply fmap_zip_fresh.
Qed.

Lemma reset_index_Date df :
  index_name df = Some "Date" →
  reset_index df
  = if bool_decide ("Date" ∈ labels_of (columns df))
    then Raised (ValueError "cannot insert Date, already exists")
    else Ok (("Date", Datetimes (index df))
               :: zip (labels_of (columns df)) (Floats <$> values df)).
Proof. intros Hname. unfold reset_index. by rewrite Hname. Qed.

Lemma index_name_normalized df : index_name (normalized df) = index_name df.
Proof. unfold normalized. by destruct (is_MultiIndex _). Qed.

Lemma columns_normalized df : columns (normalized df) = normalized_columns df.
Proof. unfold normalized, normalized_columns. by destruct (is_MultiIndex _). Qed.

Context (network : request → PriceFrame).

(** C10, amended. For the same input and the same fetch result, indexed
    by [Date] as [yf.download] returns it, the two versions raise the
    same exception or return the same visibility, the second style being
    the first with [flex] set to 1, and traces with the same series. The
    figures are equal on the initial load and, for a ticker in upper
    case, on success; they differ in the wording of the failure titles
    and in the case of the ticker in the trace name and the title. *)
Theorem update_chart_versions_agree n_clicks ticker start_date end_date :
  index_name (network (submitted ticker start_date end_date)) = Some "Date" →
  match
    returned (run network
      (RealTimeStockChart.update_chart n_clicks ticker start_date end_date)),
    returned (run network
      (RealTimeStockChart2.update_chart n_clicks ticker start_date end_date))
  with
  | Ok (fig1, style1), Ok (fig2, style2) =>
      style2 = <["flex" := PInt 1]> style1
      ∧ visibility style1 = visibility style2
      ∧ series_of <$> data fig1 = series_of <$> data fig2
      ∧ (truthy n_clicks = false → fig1 = fig2)
      ∧ (failure_of (network (submitted ticker start_date end_date)) = None →
         upper ticker = ticker → fig1 = fig2)
  | Raised e1, Raised e2 => e1 = e2
  | _, _ => False
  end.
Proof.
  intros Hname. destruct (truthy n_clicks) eqn:Hn.
  2:{ unfold RealTimeStockChart.update_chart, RealTimeStockChart2.update_chart.
      rewrite Hn. simpl. repeat split; done. }
  destruct (failure_of (network (submitted ticker start_date end_date)))
    as [f|] eqn:Hf.
  { rewrite (update_chart_failure _ _ _ _ _ f),
      (update_chart2_failure _ _ _ _ _ f) by done.
    repeat split; done. }
  unfold RealTimeStockChart.update_chart, RealTimeStockChart2.update_chart.
  rewrite Hn. cbn [negb bind download run returned print].
  fold (submitted ticker start_date end_date).
  set (df := network (submitted ticker start_date end_date)) in *.
  unfold failure_of in Hf. destruct (empty df) eqn:He; [done|].
  destruct (first_missing required_columns (normalized_columns df)) eqn:Hm;
    [done|].
  clear Hf.
  assert (Hstep : ∀ B (k : PriceFrame → Prog B),
    returned (run network
      (bind (if is_MultiIndex (columns df)
             then bind
                    (print (SimplifiedColumns
                       (columns
                          (set_columns (get_level_values_0 (columns df)) df))))
                    (λ _, Ret (set_columns (get_level_values_0 (columns df)) df))
             else Ret df) k))
    = returned (run network (k (normalized df)))).
  { intros B k. unfold normalized. by destruct (is_MultiIndex _). }
  rewrite Hstep. fold (normalized df).
  change RealTimeStockChart2.required_cols with required_columns.
  fold required_columns. rewrite columns_normalized, Hm.
  rewrite reset_index_Date by (by rewrite index_name_normalized).
  destruct (bool_decide _) eqn:Hdate; [done|].
  apply bool_decide_eq_false in Hdate.
  cbn [lift bind]. rewrite getitem_Date by done.
  cbn [lift bind to_datetime]. rewrite setitem_Date, getitem_Date by done.
  cbn [lift bind].
  destruct (getitem _ "Open") as [o|]; [|done]. cbn [lift bind].
  destruct (getitem _ "High") as [h|]; [|done]. cbn [lift bind].
  destruct (getitem _ "Low") as [l|]; [|done]. cbn [lift bind].
  destruct (getitem _ "Close") as [c|]; [|done]. cbn [lift bind].
  unfold go_Candlestick.
  destruct (invalid_property _ o h l c); cbn [lift bind run returned]; [done|].
  repeat split; try done. by intros _ ->.
Qed.
End TwoVersions.

(** * Determinism of the builders *)

Section Determinism.
Import YFinance Contract.

(** Splits the next test of a callback body. *)
Ltac step_body :=
  cbn [bind lift run print returned downloads stdout];
  match goal with
  | |- context [lift ?r] => destruct r
  | |- context [first_missing ?r ?c] => destruct (first_missing r c)
  | |- context [if ?b then _ else _] => destruct b
  end.

(** The outcome of a submission only depends on what the network
    answers to the submitted request. *)
Lemma update_chart_network n_clicks ticker start_date end_date
    network1 network2 :
  network1 (submitted ticker start_date end_date)
  = network2 (submitted ticker start_date end_date) →
  run network1
    (RealTimeStockChart.update_chart n_clicks ticker start_date end_date)
  = run network2
      (RealTimeStockChart.update_chart n_clicks ticker start_date end_date).
Proof.
  intros Hnet. unfold RealTimeStockChart.update_chart.
  destruct (truthy n_clicks); [|done].
  cbn [negb bind download run].
  fold (submitted ticker start_date end_date). rewrite Hnet.
  generalize (network2 (submitted ticker start_date end_date)). intros df.
  repeat step_body; reflexivity.
Qed.

Lemma update_chart2_network n_clicks ticker start_date end_date
    network1 network2 :
  network1 (submitted ticker start_date end_date)
  = network2 (submitted ticker start_date end_date) →
  run network1
    (RealTimeStockChart2.update_chart n_clicks ticker start_date end_date)
  = run network2
      (RealTimeStockChart2.update_chart n_clicks ticker start_date end_date).
Proof.
  intros Hnet. unfold RealTimeStockChart2.update_chart.
  destruct (truthy n_clicks); [|done].
  cbn [negb bind download run].
  fold (submitted ticker start_date end_date). rewrite Hnet.
  generalize (network2 (submitted ticker start_date end_date)). intros df.
  repeat step_body; reflexivity.
Qed.

(** C8. Every builder is deterministic. A callback over a table leaves
    the table as it is and returns the same figure when invoked again
    with the same inputs; the candlestick callbacks return the same
    result whenever the network gives the same answer to the submitted
    request. *)
Theorem builders_deterministic sort_values n_clicks ticker start_date end_date
    network1 network2 :
  network1 (submitted ticker start_date end_date)
  = network2 (submitted ticker start_date end_date) →
  returned (run network1
    (RealTimeStockChart.update_chart n_clicks ticker start_date end_date))
  = returned (run network2
      (RealTimeStockChart.update_chart n_clicks ticker start_date end_date))
  ∧ returned (run network1
      (RealTimeStockChart2.update_chart n_clicks ticker start_date end_date))
    = returned (run network2
        (RealTimeStockChart2.update_chart n_clicks ticker start_date end_date))
  ∧ (∀ selected_feature,
       repeatable (TableAndFigureApp.histogram_callback selected_feature))
  ∧ (∀ continent year,
       repeatable (Gapminder.update_population_chart sort_values continent year)
       ∧ repeatable (Gapminder.update_gdp_chart sort_values continent year)
       ∧ repeatable (Gapminder.update_life_exp_chart sort_values continent year))
  ∧ (∀ variable year, repeatable (Gapminder.update_map variable year)).
Proof.
  intros Hnet. split; [|split].
  - by rewrite (update_chart_network _ _ _ _ network1 network2).
  - by rewrite (update_chart2_network _ _ _ _ network1 network2).
  - repeat split; done.
Qed.
End Determinism.

(** * The contracts at sample inputs *)

Section Witnesses.
Import YFinance Contract.

Lemma empty_fetch_reported_witness :
  reports
    (returned (run (λ _, Samples.no_rows)
       (RealTimeStockChart.update_chart (Some 1) "ZZZZ"
          (Some "2023-01-01") (Some "2025-01-01"))))
    "No data returned for this ticker/date range"
  ∧ reports
      (returned (run (λ _, Samples.no_rows)
         (RealTimeStockChart2.update_chart (Some 1) "ZZZZ"
            (Some "2023-01-01") (Some "2025-01-01"))))
      "No data returned for this ticker or date range.".
Proof.
  apply (empty_fetch_reported (λ _, Samples.no_rows) 1 "ZZZZ");
    [lia | reflexivity].
Defined.

Lemma missing_column_reported_witness :
  reports
    (returned (run (λ _, Samples.no_low)
       (RealTimeStockChart.update_chart (Some 2) "AAPL"
          (Some "2023-01-01") (Some "2023-01-04"))))
    "Missing 'Low' data for AAPL"
  ∧ reports
      (returned (run (λ _, Samples.no_low)
         (RealTimeStockChart2.update_chart (Some 2) "AAPL"
            (Some "2023-01-01") (Some "2023-01-04"))))
      "Missing 'Low' data for AAPL.".
Proof.
  apply (missing_column_reported (λ _, Samples.no_low) 2 "AAPL"
           (Some "2023-01-01") (Some "2023-01-04") "Low").
  - lia.
  - reflexivity.
  - unfold required_columns. repeat constructor.
  - reflexivity.
  - intros c Hc Hne. unfold required_columns in Hc.
    repeat (apply elem_of_cons in Hc as [->|Hc]);
      [reflexivity | reflexivity | done | reflexivity
      | by apply elem_of_nil in Hc].
Defined.

Lemma first_missing_column_reported_witness :
  reports
    (returned (run (λ _, Samples.no_high_no_close)
       (RealTimeStockChart.update_chart (Some 1) "AAPL"
          (Some "2023-01-01") (Some "2023-01-04"))))
    "Missing 'High' data for AAPL"
  ∧ reports
      (returned (run (λ _, Samples.no_high_no_close)
         (RealTimeStockChart2.update_chart (Some 1) "AAPL"
            (Some "2023-01-01") (Some "2023-01-04"))))
      "Missing 'High' data for AAPL.".
Proof.
  apply (first_missing_column_reported (λ _, Samples.no_high_no_close) 1
           "AAPL" (Some "2023-01-01") (Some "2023-01-04")
           ["Open"] "High" ["Low"; "Close"]).
  - lia.
  - reflexivity.
  - reflexivity.
  - repeat constructor.
  - reflexivity.
Defined.

Lemma initial_load_hidden_without_fetch_witness :
  ∃ style style2,
    visibility style = Some (PStr "hidden")
    ∧ visibility style2 = Some (PStr "hidden")
    ∧ @data trace go_Figure = []
    ∧ ∀ network,
        run network
          (RealTimeStockChart.update_chart (Some 0) "AAPL"
             (Some "2023-01-01") (Some "2025-01-01"))
        = mkOutcome (Ok (go_Figure, style)) [] []
        ∧ run network
            (RealTimeStockChart2.update_chart (Some 0) "AAPL"
               (Some "2023-01-01") (Some "2025-01-01"))
          = mkOutcome (Ok (go_Figure, style2)) [] [].
Proof.
  apply (initial_load_hidden_without_fetch (Some 0) "AAPL"). by right.
Defined.

Lemma failure_chart_traceless_titled_witness :
  ∃ fig fig2 style style2,
    returned (run (λ _, Samples.no_low)
      (RealTimeStockChart.update_chart (Some 1) "AAPL" None None))
    = Ok (fig, style)
    ∧ returned (run (λ _, Samples.no_low)
        (RealTimeStockChart2.update_chart (Some 1) "AAPL" None None))
      = Ok (fig2, style2)
    ∧ data fig = [] ∧ data fig2 = []
    ∧ figure_kind fig = None ∧ figure_kind fig2 = None
    ∧ title fig = Some (PStr "Missing 'Low' data for AAPL")
    ∧ title fig2 = Some (PStr "Missing 'Low' data for AAPL.")
    ∧ layout fig !! "template" = Some (PStr "plotly_dark")
    ∧ layout fig2 !! "template" = Some (PStr "plotly_dark").
Proof.
  apply (failure_chart_traceless_titled (λ _, Samples.no_low) 1 "AAPL"
           None None (MissingColumn "Low")); [lia | reflexivity].
Defined.

Lemma update_chart_versions_agree_witness :
  match
    returned (run (λ _, Samples.full)
      (RealTimeStockChart.update_chart (Some 1) "AAPL" None None)),
    returned (run (λ _, Samples.full)
      (RealTimeStockChart2.update_chart (Some 1) "AAPL" None None))
  with
  | Ok (fig1, style1), Ok (fig2, style2) =>
      style2 = <["flex" := PInt 1]> style1
      ∧ visibility style1 = visibility style2
      ∧ series_of <$> data fig1 = series_of <$> data fig2
      ∧ (truthy (Some 1) = false → fig1 = fig2)
      ∧ (failure_of Samples.full = None → upper "AAPL" = "AAPL" → fig1 = fig2)
  | Raised e1, Raised e2 => e1 = e2
  | _, _ => False
  end.
Proof.
  apply (update_chart_versions_agree (λ _, Samples.full) (Some 1) "AAPL"
           None None).
  reflexivity.
Defined.

Lemma builders_deterministic_witness :
  returned (run (λ _, Samples.full)
    (RealTimeStockChart.update_chart (Some 1) "AAPL" None None))
  = returned (run (λ r, if decide (req_ticker r = "AAPL") then Samples.full
                        else Samples.no_rows)
      (RealTimeStockChart.update_chart (Some 1) "AAPL" None None))
  ∧ repeatable
      (Gapminder.update_population_chart Ranking.merge_sort_values "Asia" 1952)
  ∧ (TableAndFigureApp.histogram_callback (Some "MedInc")
       (TableAndFigureApp.histogram_callback (Some "MedInc")
          (TableAndFigureApp.mkState Samples.housing)).2).1
    = (TableAndFigureApp.histogram_callback (Some "MedInc")
         (TableAndFigureApp.mkState Samples.housing)).1.
Proof.
  pose proof (builders_deterministic Ranking.merge_sort_values (Some 1)
                "AAPL" None None (λ _, Samples.full)
                (λ r, if decide (req_ticker r = "AAPL") then Samples.full
                      else Samples.no_rows) eq_refl)
    as (Hv1 & _ & Hhist & Hbars & _).
  split; [exact Hv1|]. split; [exact (proj1 (Hbars "Asia" 1952))|].
  exact (proj2 (Hhist (Some "MedInc")
                  (TableAndFigureApp.mkState Samples.housing))).
Defined.

(** A successful submission draws a candlestick chart; the second version
    writes the ticker in upper case. *)
Example candlestick_on_success :
  ∃ fig style,
    returned (run (λ _, Samples.full)
      (RealTimeStockChart2.update_chart (Some 1) "aapl" None None))
    = Ok (fig, style)
    ∧ figure_kind fig = Some KCandlestick
    ∧ title fig = Some (PStr "Candlestick Chart of AAPL")
    ∧ visibility style = Some (PStr "visible").
Proof. eexists _, _. repeat split; reflexivity. Qed.

(** The ranking of the sample table by population. *)
Example population_ranking_sample :
  (Gapminder.figure_rows <$> result_to_option
     (Gapminder.create_population_chart Ranking.merge_sort_values
        Ranking.sample_df "Asia" 1952))
  = Some [Ranking.gamma; Ranking.alpha; Ranking.beta].
Proof. reflexivity. Qed.
End Witnesses.

(** * More of the candlestick callbacks *)
Section Drawing.
Import YFinance Contract StockLayout.

Context (network : request → PriceFrame).

(** After the checks, either version is its drawing of the normalized
    frame. *)
Lemma update_chart_draws n_clicks ticker start_date end_date :
  truthy n_clicks = true →
  failure_of (network (submitted ticker start_date end_date)) = None →
  returned (run network
    (RealTimeStockChart.update_chart n_clicks ticker start_date end_date))
  = draw (normalized (network (submitted ticker start_date end_date))) ticker
  ∧ returned (run network
      (RealTimeStockChart2.update_chart n_clicks ticker start_date end_date))
    = draw2 (normalized (network (submitted ticker start_date end_date))) ticker.
Proof.
  intros Hn Hf.
  unfold RealTimeStockChart.update_chart, RealTimeStockChart2.update_chart.
  rewrite Hn. cbn [negb bind download run returned print].
  fold (submitted ticker start_date end_date).
  set (df := network (submitted ticker start_date end_date)) in *.
  unfold failure_of in Hf. destruct (empty df) eqn:He; [done|].
  destruct (first_missing required_columns (normalized_columns df)) eqn:Hm;
    [done|].
  clear Hf.
  assert (Hstep : ∀ B (k : PriceFrame → Prog B),
    returned (run network
      (bind (if is_MultiIndex (columns df)
             then bind
                    (print (SimplifiedColumns
                       (columns
                          (set_columns (get_level_values_0 (columns df)) df))))
                    (λ _, Ret (set_columns (get_level_values_0 (columns df)) df))
             else Ret df) k))
    = returned (run network (k (normalized df)))).
  { intros B k. unfold normalized. by destruct (is_MultiIndex _). }
  rewrite Hstep. fold (normalized df).
  change RealTimeStockChart2.required_cols with required_columns.
  fold required_columns. rewrite columns_normalized, Hm.
  unfold draw, draw2, ohlc. split.
  - destruct (reset_index (normalized df)) as [tbl|]; [|done].
    cbn [lift bind bind_result].
    destruct (getitem tbl "Date") as [date|]; [|done].
    cbn [lift bind bind_result].
    destruct (to_datetime date) as [date'|]; [|done].
    cbn [lift bind bind_result].
    repeat (match goal with
            | |- context [getitem ?t ?l] => destruct (getitem t l)
            end; cbn [lift bind bind_result run returned]; [|done]).
    by destruct (go_Candlestick _ _ _ _ _ _).
  - destruct (reset_index (normalized df)) as [tbl|]; [|done].
    cbn [lift bind bind_result].
    repeat (match goal with
            | |- context [getitem ?t ?l] => destruct (getitem t l)
            end; cbn [lift bind bind_result run returned]; [|done]).
    by destruct (go_Candlestick _ _ _ _ _ _).
Qed.

Lemma first_missing_None required c :
  first_missing required c = None
  ↔ Forall (λ col, contains c col = true) required.
Proof.
  induction required as [|col required IH]; simpl.
  - split; [constructor | done].
  - rewrite Forall_cons. destruct (contains c col); simpl; [|split; [done|]].
    + rewrite IH. tauto.
    + by intros [? _].
Qed.

Lemma labels_normalized df :
  labels_of (normalized_columns df) = labels_of (columns df).
Proof. unfold normalized_columns. by destruct (columns df). Qed.

Lemma contains_normalized df col :
  contains (normalized_columns df) col
  = bool_decide (col ∈ labels_of (columns df)).
Proof. unfold normalized_columns. by destruct (columns df). Qed.


Lemma getitem_absent (tbl : list (string * series)) label :
  label ∉ tbl.*1 → getitem tbl label = Raised (KeyError label).
Proof.
  intros Hout. unfold getitem.
  destruct (filter _ tbl) as [|c rest] eqn:Hf; [done|].
  exfalso. apply Hout.
  assert (c ∈ filter (λ c : string * series, c.1 = label) tbl) as Hc
    by (rewrite Hf; left).
  apply list_elem_of_filter in Hc as [<- Hc]. by apply list_elem_of_fmap_2.
Qed.

(** For a frame indexed by [Date] without a column of that name, the
    drawing reads the dates off the index. *)
Lemma draw_dated df ticker :
  index_name df = Some "Date" →
  "Date" ∉ labels_of (columns df) →
  draw df ticker
  = drawn (dated df) (index df) ticker {[ "visibility" := PStr "visible" ]}
  ∧ draw2 df ticker
    = drawn (dated df) (index df) (upper ticker)
        (<["flex" := PInt 1]> {[ "visibility" := PStr "visible" ]}).
Proof.
  intros Hname Hfresh. unfold draw, draw2, drawn, dated.
  rewrite reset_index_Date, bool_decide_false by done.
  cbn [bind_result]. rewrite getitem_Date by done.
  cbn [bind_result to_datetime]. rewrite setitem_Date, getitem_Date by done.
  cbn [bind_result].
  split; destruct (ohlc _) as [[[[o h] l] c]|]; done.
Qed.

Lemma normalization_parts df :
  columns (normalized df) = Index (labels_of (columns df))
  ∧ index (normalized df) = index df
  ∧ values (normalized df) = values df.
Proof. unfold normalized. by destruct df as [? ? [?|?] ?]. Qed.

Lemma filter_zip_unique label labels (vs : list series) :
  NoDup labels → label ∈ labels → (length labels ≤ length vs)%nat →
  ∃ s, filter (λ c : string * series, c.1 = label) (zip labels vs)
       = [(label, s)]
    ∧ (label, s) ∈ zip labels vs.
Proof.
  revert vs. induction labels as [|l labels IH]; intros vs Hnodup Hin Hlen.
  { by apply elem_of_nil in Hin. }
  destruct vs as [|v vs]; [simpl in Hlen; lia|]. simpl in Hlen.
  apply NoDup_cons in Hnodup as [Hfresh Hnodup]. simpl.
  destruct (decide (l = label)) as [->|Hne].
  - exists v. rewrite filter_cons_True by done.
    rewrite filter_zip_fresh by done. split; [done | left].
  - apply elem_of_cons in Hin as [->|Hin]; [done|].
    destruct (IH vs Hnodup Hin) as (s & Hs & Hzip); [lia|].
    exists s. rewrite filter_cons_False by (simpl; congruence).
    split; [done | by right].
Qed.



(** X1. After a submission, a frame that passed the checks, is indexed by
    [Date], has each label once and prices for each label is drawn by
    either version as one candlestick trace over the dates of the index,
    each series being the column of its label, in a visible container.
    The ticker is one of ASCII characters, which the second version shows
    in upper case. *)
Theorem candlestick_drawn n ticker start_date end_date :
  let df := network (submitted ticker start_date end_date) in
  let prices := zip (labels_of (columns df)) (Floats <$> values df) in
  1 ≤ n →
  failure_of df = None →
  index_name df = Some "Date" →
  "Date" ∉ labels_of (columns df) →
  NoDup (labels_of (columns df)) →
  (length (labels_of (columns df)) ≤ length (values df))%nat →
  ascii_only ticker →
  ∃ open_ high_ low_ close_,
    ("Open", open_) ∈ prices ∧ ("High", high_) ∈ prices
    ∧ ("Low", low_) ∈ prices ∧ ("Close", close_) ∈ prices
    ∧ returned (run network
        (RealTimeStockChart.update_chart (Some n) ticker start_date end_date))
      = Ok (update_layout (candlestick_layout ticker)
              (go_Figure_data
                 [Candlestick [Datetimes (index df)]
                    [open_] [high_] [low_] [close_] ticker]),
            {[ "visibility" := PStr "visible" ]})
    ∧ returned (run network
        (RealTimeStockChart2.update_chart (Some n) ticker start_date end_date))
      = Ok (update_layout (candlestick_layout (upper ticker))
              (go_Figure_data
                 [Candlestick [Datetimes (index df)]
                    [open_] [high_] [low_] [close_] (upper ticker)]),
            <["flex" := PInt 1]> {[ "visibility" := PStr "visible" ]}).
Proof.
  intros df prices Hn Hf Hname Hfresh Hnodup Hlen _.
  apply truthy_positive in Hn.
  destruct (update_chart_draws (Some n) ticker start_date end_date Hn Hf)
    as [-> ->].
  fold df.
  destruct (draw_dated (normalized df) ticker) as [-> ->].
  { by rewrite index_name_normalized. }
  { by rewrite columns_normalized, labels_normalized. }
  destruct (normalization_parts df) as (Hcols & Hidx & Hvals).
  rewrite Hidx.
  unfold failure_of in Hf. destruct (empty df); [done|].
  destruct (first_missing _ _) eqn:Hm; [done|]. clear Hf.
  apply first_missing_None in Hm.
  assert (∀ col, col ∈ required_columns →
            ∃ s, getitem (dated (normalized df)) col = Ok [s]
                 ∧ (col, s) ∈ prices)
    as Hget.
  { intros col Hcol.
    assert (col ≠ "Date") as Hne.
    { intros ->. unfold required_columns in Hcol.
      by repeat (apply elem_of_cons in Hcol as [?|Hcol]);
        [..|apply elem_of_nil in Hcol]. }
    rewrite Forall_forall in Hm. specialize (Hm col Hcol).
    rewrite contains_normalized in Hm. apply bool_decide_eq_true in Hm.
    destruct (filter_zip_unique col (labels_of (columns df))
                (Floats <$> values df)) as (s & Hs & Hzip);
      [done | done | by rewrite length_fmap |].
    exists s. split; [|done].
    unfold getitem, dated. rewrite Hcols, Hvals. cbn [labels_of].
    rewrite filter_cons_False by (simpl; congruence).
    by rewrite Hs. }
  destruct (Hget "Open") as (o & Ho & ?);
    [unfold required_columns; repeat constructor|].
  destruct (Hget "High") as (h & Hh & ?);
    [unfold required_columns; repeat constructor|].
  destruct (Hget "Low") as (l & Hl & ?);
    [unfold required_columns; repeat constructor|].
  destruct (Hget "Close") as (c & Hc & ?);
    [unfold required_columns; repeat constructor|].
  exists o, h, l, c. unfold drawn, ohlc. rewrite Ho, Hh, Hl, Hc.
  by repeat split.
Qed.

(** X3. Neither version catches what pandas raises after the checks: a
    frame whose re-indexing has no [Date] column makes both raise
    [KeyError('Date')]. *)
Theorem missing_date_column_raises n ticker start_date end_date tbl :
  let df := network (submitted ticker start_date end_date) in
  1 ≤ n →
  failure_of df = None →
  reset_index (normalized df) = Ok tbl →
  "Date" ∉ tbl.*1 →
  returned (run network
    (RealTimeStockChart.update_chart (Some n) ticker start_date end_date))
  = Raised (KeyError "Date")
  ∧ returned (run network
      (RealTimeStockChart2.update_chart (Some n) ticker start_date end_date))
    = Raised (KeyError "Date").
Proof.
  intros df Hn Hf Hreset Hout. apply truthy_positive in Hn.
  destruct (update_chart_draws (Some n) ticker start_date end_date Hn Hf)
    as [-> ->].
  fold df. unfold draw, draw2. rewrite Hreset. cbn [bind_result].
  by rewrite getitem_absent.
Qed.

(** X4. A frame that [reset_index] refuses, as one that already has a
    column named like its index, makes both versions raise what
    [reset_index] raised. *)
Theorem reset_index_fault_propagates n ticker start_date end_date e :
  let df := network (submitted ticker start_date end_date) in
  1 ≤ n →
  failure_of df = None →
  reset_index (normalized df) = Raised e →
  returned (run network
    (RealTimeStockChart.update_chart (Some n) ticker start_date end_date))
  = Raised e
  ∧ returned (run network
      (RealTimeStockChart2.update_chart (Some n) ticker start_date end_date))
    = Raised e.
Proof.
  intros df Hn Hf Hreset. apply truthy_positive in Hn.
  destruct (update_chart_draws (Some n) ticker start_date end_date Hn Hf)
    as [-> ->].
  fold df. unfold draw, draw2. by rewrite Hreset.
Qed.



(** X2. A figure with a trace only comes from a submission whose frame is
    not empty and has the four required columns. *)
Theorem trace_only_from_checked_frame n_clicks ticker start_date end_date
    fig style :
  let df := network (submitted ticker start_date end_date) in
  returned (run network
    (RealTimeStockChart.update_chart n_clicks ticker start_date end_date))
  = Ok (fig, style)
  ∨ returned (run network
      (RealTimeStockChart2.update_chart n_clicks ticker start_date end_date))
    = Ok (fig, style) →
  data fig ≠ [] →
  truthy n_clicks = true
  ∧ empty df = false
  ∧ Forall (λ col, contains (normalized_columns df) col = true)
      required_columns.
Proof.
  intros df Hret Hdata. destruct (truthy n_clicks) eqn:Hn.
  2:{ exfalso. apply Hdata.
      unfold RealTimeStockChart.update_chart, RealTimeStockChart2.update_chart
        in Hret.
      rewrite Hn in Hret. simpl in Hret.
      by destruct Hret as [Hret|Hret]; injection Hret as <- _. }
  destruct (failure_of df) as [f|] eqn:Hf.
  { exfalso. apply Hdata. fold df in Hret.
    rewrite (update_chart_failure _ _ _ _ _ f),
      (update_chart2_failure _ _ _ _ _ f) in Hret by done.
    by destruct Hret as [Hret|Hret]; injection Hret as <- _. }
  split; [done|]. unfold failure_of in Hf.
  destruct (empty df); [done|]. split; [done|].
  apply first_missing_None. by destruct (first_missing _ _).
Qed.
End Drawing.

Section Effects.
Import YFinance Contract StockLayout.

(** Splits the next test of a callback body. *)
Ltac step_effect :=
  cbn [bind lift run print returned downloads stdout];
  match goal with
  | |- context [lift ?r] => destruct r
  | |- context [first_missing ?r ?c] => destruct (first_missing r c)
  end.

Context (network : request → PriceFrame).

(** X5. A submission downloads once, the submitted ticker and dates with
    the columns grouped by field; the initial load downloads nothing. *)
Theorem one_download_per_submission n_clicks ticker start_date end_date :
  downloads (run network
    (RealTimeStockChart.update_chart n_clicks ticker start_date end_date))
  = (if truthy n_clicks
     then [mkRequest ticker start_date end_date "column"] else [])
  ∧ downloads (run network
      (RealTimeStockChart2.update_chart n_clicks ticker start_date end_date))
    = (if truthy n_clicks
       then [mkRequest ticker start_date end_date "column"] else []).
Proof.
  unfold RealTimeStockChart.update_chart, RealTimeStockChart2.update_chart.
  destruct (truthy n_clicks); [|done].
  cbn [negb bind download run downloads print].
  generalize (network (mkRequest ticker start_date end_date "column")).
  intros df. split.
  - destruct (empty df); [done|].
    destruct (is_MultiIndex (columns df)); repeat step_effect; reflexivity.
  - destruct (empty df); [done|].
    destruct (is_MultiIndex (columns df)); repeat step_effect; reflexivity.
Qed.

(** X8. The first version prints, for every submission, the number of rows
    and the columns of the frame, and the flattened columns when it
    flattens them; the second version prints nothing. *)
Theorem diagnostics_printed n_clicks ticker start_date end_date :
  stdout (run network
    (RealTimeStockChart.update_chart n_clicks ticker start_date end_date))
  = (if truthy n_clicks
     then printed (network (submitted ticker start_date end_date)) else [])
  ∧ stdout (run network
      (RealTimeStockChart2.update_chart n_clicks ticker start_date end_date))
    = [].
Proof.
  unfold RealTimeStockChart.update_chart, RealTimeStockChart2.update_chart.
  destruct (truthy n_clicks); [|done].
  cbn [negb bind download run stdout print].
  fold (submitted ticker start_date end_date).
  generalize (network (submitted ticker start_date end_date)).
  intros df. unfold printed. split.
  - destruct (empty df); [done|].
    destruct (is_MultiIndex (columns df)); repeat step_effect; reflexivity.
  - destruct (empty df); [done|].
    destruct (is_MultiIndex (columns df)); repeat step_effect; reflexivity.
Qed.
End Effects.

Section Styles.
Import YFinance Contract StockLayout.

Lemma draw_style df ticker :
  match draw df ticker with
  | Ok (_, style) => style = {[ "visibility" := PStr "visible" ]}
  | Raised _ => True
  end
  ∧ match draw2 df ticker with
    | Ok (_, style) =>
        style = <["flex" := PInt 1]> {[ "visibility" := PStr "visible" ]}
    | Raised _ => True
    end.
Proof.
  unfold draw, draw2. split.
  - destruct (reset_index df) as [tbl|]; [|done]. cbn [bind_result].
    destruct (getitem tbl "Date") as [date|]; [|done]. cbn [bind_result].
    destruct (to_datetime date) as [date'|]; [|done]. cbn [bind_result].
    destruct (getitem _ "Date") as [x_|]; [|done]. cbn [bind_result].
    destruct (ohlc _) as [[[[o h] l] c]|]; [|done]. cbn [bind_result].
    by destruct (go_Candlestick _ _ _ _ _ _).
  - destruct (reset_index df) as [tbl|]; [|done]. cbn [bind_result].
    destruct (getitem tbl "Date") as [x_|]; [|done]. cbn [bind_result].
    destruct (ohlc _) as [[[[o h] l] c]|]; [|done]. cbn [bind_result].
    by destruct (go_Candlestick _ _ _ _ _ _).
Qed.

Context (network : request → PriceFrame).

(** What a call returns or why it raises, for a network that answers
    every request. *)
Lemma callback_style_or_checked n_clicks ticker start_date end_date :
  let df := network (submitted ticker start_date end_date) in
  let shown := PStr (if truthy n_clicks then "visible" else "hidden") in
  match
    returned (run network
      (RealTimeStockChart.update_chart n_clicks ticker start_date end_date))
  with
  | Ok (_, style) => style = <["visibility" := shown]> chart_container_style
  | Raised _ => truthy n_clicks = true ∧ failure_of df = None
  end
  ∧ match
      returned (run network
        (RealTimeStockChart2.update_chart n_clicks ticker start_date end_date))
    with
    | Ok (_, style) =>
        style = delete "paddingRight"
                  (<["visibility" := shown]> chart_container_style2)
    | Raised _ => truthy n_clicks = true ∧ failure_of df = None
    end.
Proof.
  intros df shown. subst shown. destruct (truthy n_clicks) eqn:Hn.
  2:{ unfold RealTimeStockChart.update_chart, RealTimeStockChart2.update_chart.
      rewrite Hn. simpl. by repeat split. }
  destruct (failure_of df) as [f|] eqn:Hf.
  { fold df. rewrite (update_chart_failure _ _ _ _ _ f),
      (update_chart2_failure _ _ _ _ _ f) by done.
    by repeat split. }
  destruct (update_chart_draws network n_clicks ticker start_date end_date Hn Hf)
    as [-> ->].
  destruct (draw_style (normalized df) ticker) as [H1 H2]. fold df. split.
  - destruct (draw _ _) as [[fig style]|]; [by subst|done].
  - destruct (draw2 _ _) as [[fig style]|]; [by subst|done].
Qed.

End Styles.

Section Faults.
Import YFinance Contract StockLayout.

(** Splits the next test of a callback body under both interpreters. *)
Ltac step_fault :=
  cbn [bind lift run run_faulty print returned downloads stdout];
  match goal with
  | |- context [lift ?r] => destruct r
  | |- context [first_missing ?r ?c] => destruct (first_missing r c)
  end.

Context (network : request → result PriceFrame).

(** When the download returns a frame, the call goes on as it does over a
    network that answers with that frame. *)
Lemma run_faulty_answered n_clicks ticker start_date end_date df :
  network (submitted ticker start_date end_date) = Ok df →
  run_faulty network
    (RealTimeStockChart.update_chart n_clicks ticker start_date end_date)
  = run (λ _, df)
      (RealTimeStockChart.update_chart n_clicks ticker start_date end_date)
  ∧ run_faulty network
      (RealTimeStockChart2.update_chart n_clicks ticker start_date end_date)
    = run (λ _, df)
        (RealTimeStockChart2.update_chart n_clicks ticker start_date end_date).
Proof.
  intros Hnet. unfold submitted in Hnet.
  unfold RealTimeStockChart.update_chart, RealTimeStockChart2.update_chart.
  destruct (truthy n_clicks); [|done].
  cbn [negb bind download run run_faulty]. rewrite Hnet. split.
  - destruct (empty df); [done|].
    destruct (is_MultiIndex (columns df)); repeat step_fault; reflexivity.
  - destruct (empty df); [done|].
    destruct (is_MultiIndex (columns df)); repeat step_fault; reflexivity.
Qed.

Lemma run_faulty_refused n_clicks ticker start_date end_date exc :
  truthy n_clicks = true →
  network (submitted ticker start_date end_date) = Raised exc →
  run_faulty network
    (RealTimeStockChart.update_chart n_clicks ticker start_date end_date)
  = mkOutcome (Raised exc) [submitted ticker start_date end_date] []
  ∧ run_faulty network
      (RealTimeStockChart2.update_chart n_clicks ticker start_date end_date)
    = mkOutcome (Raised exc) [submitted ticker start_date end_date] [].
Proof.
  intros Hn Hnet. unfold submitted in *.
  unfold RealTimeStockChart.update_chart, RealTimeStockChart2.update_chart.
  rewrite Hn. cbn [negb bind download run_faulty]. by rewrite Hnet.
Qed.

(** X6. Whenever a version returns, its style is the style that the layout
    gives the chart container, with the visibility [visible] after a
    submission and [hidden] before; the second version leaves out the
    [paddingRight] of its layout. This holds also where the download may
    raise. *)
Theorem callback_style_of_layout n_clicks ticker start_date end_date :
  let shown := PStr (if truthy n_clicks then "visible" else "hidden") in
  match
    returned (run_faulty network
      (RealTimeStockChart.update_chart n_clicks ticker start_date end_date))
  with
  | Ok (_, style) => style = <["visibility" := shown]> chart_container_style
  | Raised _ => True
  end
  ∧ match
      returned (run_faulty network
        (RealTimeStockChart2.update_chart n_clicks ticker start_date end_date))
    with
    | Ok (_, style) =>
        style = delete "paddingRight"
                  (<["visibility" := shown]> chart_container_style2)
        ∧ chart_container_style2 !! "paddingRight" = Some (PStr "20px")
    | Raised _ => True
    end.
Proof.
  intros shown.
  destruct (network (submitted ticker start_date end_date)) as [df|exc] eqn:Hnet.
  - destruct (run_faulty_answered n_clicks ticker start_date end_date df Hnet)
      as [-> ->].
    destruct (callback_style_or_checked (λ _, df) n_clicks ticker start_date
                end_date) as [H1 H2].
    split.
    + clear H2. by destruct (returned _) as [[fig style]|].
    + clear H1. destruct (returned _) as [[fig style]|]; [|done].
      split; [done | reflexivity].
  - subst shown. destruct (truthy n_clicks) eqn:Hn.
    + by destruct (run_faulty_refused n_clicks ticker start_date end_date exc
                     Hn Hnet) as [-> ->].
    + unfold RealTimeStockChart.update_chart, RealTimeStockChart2.update_chart.
      rewrite Hn. simpl. by repeat split.
Qed.

(** X21. An exception of the download is the exception of the call: after
    a submission both versions raise it, having issued the one request and
    printed nothing. *)
Theorem download_fault_propagates n ticker start_date end_date exc :
  1 ≤ n →
  network (submitted ticker start_date end_date) = Raised exc →
  run_faulty network
    (RealTimeStockChart.update_chart (Some n) ticker start_date end_date)
  = mkOutcome (Raised exc) [submitted ticker start_date end_date] []
  ∧ run_faulty network
      (RealTimeStockChart2.update_chart (Some n) ticker start_date end_date)
    = mkOutcome (Raised exc) [submitted ticker start_date end_date] [].
Proof.
  intros Hn Hnet. apply run_faulty_refused; [|done]. by apply truthy_positive.
Qed.

(** X22. A call of either version raises only after a submission, and then
    either with the exception of the download or for a frame that passed
    both checks: an empty frame and a missing column are reported in a
    figure and never raised. *)
Theorem raises_from_download_or_drawing n_clicks ticker start_date end_date
    exc :
  returned (run_faulty network
    (RealTimeStockChart.update_chart n_clicks ticker start_date end_date))
  = Raised exc
  ∨ returned (run_faulty network
      (RealTimeStockChart2.update_chart n_clicks ticker start_date end_date))
    = Raised exc →
  truthy n_clicks = true
  ∧ (network (submitted ticker start_date end_date) = Raised exc
     ∨ ∃ df, network (submitted ticker start_date end_date) = Ok df
             ∧ failure_of df = None).
Proof.
  intros Hraised.
  destruct (network (submitted ticker start_date end_date)) as [df|exc'] eqn:Hnet.
  - destruct (run_faulty_answered n_clicks ticker start_date end_date df Hnet)
      as [Hv1 Hv2].
    rewrite Hv1, Hv2 in Hraised.
    destruct (callback_style_or_checked (λ _, df) n_clicks ticker start_date
                end_date) as [H1 H2].
    cbv zeta in H1, H2.
    destruct Hraised as [Hr|Hr].
    + rewrite Hr in H1. destruct H1 as [Hn Hf]. eauto.
    + rewrite Hr in H2. destruct H2 as [Hn Hf]. eauto.
  - destruct (truthy n_clicks) eqn:Hn.
    + destruct (run_faulty_refused n_clicks ticker start_date end_date exc'
                  Hn Hnet) as [Hv1 Hv2].
      rewrite Hv1, Hv2 in Hraised. cbn [returned] in Hraised.
      split; [done|]. left. by destruct Hraised as [[= ->]|[= ->]].
    + unfold RealTimeStockChart.update_chart, RealTimeStockChart2.update_chart
        in Hraised.
      rewrite Hn in Hraised. by destruct Hraised.
Qed.
End Faults.

Section Normalization.
Import YFinance Contract StockLayout.

(** X9. Flattening the columns is idempotent and leaves a single-level
    index of the first-level labels; it changes neither the index, nor the
    prices, nor whether the frame is empty. *)
Theorem normalization_keeps_frame df :
  normalized (normalized df) = normalized df
  ∧ columns (normalized df) = Index (labels_of (columns df))
  ∧ index_name (normalized df) = index_name df
  ∧ index (normalized df) = index df
  ∧ values (normalized df) = values df
  ∧ empty (normalized df) = empty df.
Proof.
  destruct df as [name idx [labels|tuples] vals]; unfold normalized; simpl.
  - by repeat split.
  - repeat split. unfold empty. simpl. by rewrite length_fmap.
Qed.

Lemma first_missing_ext required c1 c2 :
  (∀ col, col ∈ required → contains c1 col = contains c2 col) →
  first_missing required c1 = first_missing required c2.
Proof.
  induction required as [|col required IH]; intros Hext; [done|].
  simpl. rewrite (Hext col) by left.
  destruct (contains c2 col); simpl; [|done].
  apply IH. intros c Hc. apply Hext. by right.
Qed.

Lemma getitem_snoc (tbl : list (string * series)) label s col :
  col ≠ label → getitem (tbl ++ [(label, s)])%list col = getitem tbl col.
Proof.
  intros Hne. unfold getitem. rewrite filter_app.
  rewrite (filter_cons_False _ (label, s)) by (simpl; congruence).
  by rewrite filter_nil, app_nil_r.
Qed.

Lemma dated_with_column df label prices :
  length (labels_of (columns df)) = length (values df) →
  dated (with_column df label prices)
  = (dated (normalized df) ++ [(label, Floats prices)])%list.
Proof.
  intros Hlen. unfold dated, with_column.
  cbn [columns values index labels_of].
  rewrite columns_normalized, labels_normalized.
  destruct (normalization_keeps_frame df) as (_ & _ & _ & -> & -> & _).
  rewrite fmap_app, zip_with_app by (by rewrite length_fmap).
  done.
Qed.

(** X7. A column of prices that is none of [Open], [High], [Low], [Close]
    and is not labelled [Date], as [Volume], does not change what either
    version returns for a frame that is not empty and is indexed by
    [Date]. *)
Theorem other_columns_ignored network network' n_clicks ticker
    start_date end_date label prices :
  let df := network (submitted ticker start_date end_date) in
  network' (submitted ticker start_date end_date)
  = with_column df label prices →
  empty df = false →
  index_name df = Some "Date" →
  length (labels_of (columns df)) = length (values df) →
  label ∉ "Date" :: required_columns →
  returned (run network'
    (RealTimeStockChart.update_chart n_clicks ticker start_date end_date))
  = returned (run network
      (RealTimeStockChart.update_chart n_clicks ticker start_date end_date))
  ∧ returned (run network'
      (RealTimeStockChart2.update_chart n_clicks ticker start_date end_date))
    = returned (run network
        (RealTimeStockChart2.update_chart n_clicks ticker start_date end_date)).
Proof.
  intros df Hnet He Hname Hlen Hlabel.
  apply not_elem_of_cons in Hlabel as [Hdate Hreq].
  destruct (truthy n_clicks) eqn:Hn.
  2:{ unfold RealTimeStockChart.update_chart, RealTimeStockChart2.update_chart.
      by rewrite Hn. }
  set (df' := with_column df label prices) in *.
  assert (normalized df' = df') as Hnorm' by done.
  assert (failure_of df' = failure_of df) as Hfail.
  { unfold failure_of. rewrite He.
    assert (empty df' = false) as ->.
    { pose proof He as He'. unfold empty, len in He'.
      apply orb_false_iff in He' as [Hrows _].
      unfold empty, len, df', with_column. cbn [index columns width].
      rewrite Hrows. cbn [orb]. apply bool_decide_eq_false.
      rewrite length_app. simpl. lia. }
    f_equal. apply first_missing_ext. intros col Hcol.
    rewrite !contains_normalized. unfold df', with_column.
    cbn [columns labels_of]. apply bool_decide_ext. rewrite elem_of_app, list_elem_of_singleton.
    split; [|by left]. intros [Hin|Heq]; [done|]. subst col. by destruct Hreq. }
  destruct (failure_of df) as [f|] eqn:Hf.
  { rewrite (update_chart_failure network' _ _ _ _ f),
      (update_chart2_failure network' _ _ _ _ f),
      (update_chart_failure network _ _ _ _ f),
      (update_chart2_failure network _ _ _ _ f); try done.
    all: by rewrite Hnet. }
  destruct (update_chart_draws network n_clicks ticker start_date end_date Hn Hf)
    as [-> ->].
  destruct (update_chart_draws network' n_clicks ticker start_date end_date Hn)
    as [-> ->]; [by rewrite Hnet|].
  rewrite Hnet. fold df df'. rewrite Hnorm'.
  destruct (decide ("Date" ∈ labels_of (columns df))) as [Hin|Hout].
  - unfold draw, draw2.
    rewrite !reset_index_Date by (by rewrite ?index_name_normalized).
    rewrite columns_normalized, labels_normalized.
    rewrite !bool_decide_true; [done|done|].
    unfold df'. simpl. apply elem_of_app. by left.
  - destruct (draw_dated df' ticker) as [-> ->]; [done| |].
    { unfold df'. simpl. rewrite elem_of_app, list_elem_of_singleton.
      by intros [?|?]. }
    destruct (draw_dated (normalized df) ticker) as [-> ->].
    { by rewrite index_name_normalized. }
    { by rewrite columns_normalized, labels_normalized. }
    assert (ohlc (dated df') = ohlc (dated (normalized df))) as Hohlc.
    { unfold df'. rewrite dated_with_column by done. unfold ohlc.
      assert (∀ col, col ∈ required_columns →
                getitem (dated (normalized df) ++ [(label, Floats prices)])%list col
                = getitem (dated (normalized df)) col) as Hget.
      { intros col Hcol. apply getitem_snoc. by intros ->. }
      by rewrite !Hget by (unfold required_columns; repeat constructor). }
    unfold drawn. rewrite Hohlc.
    destruct (normalization_keeps_frame df) as (_ & _ & _ & -> & _ & _).
    done.
Qed.
End Normalization.

(** * More of the Gapminder dashboard *)

Section Options.
Import Gapminder Widgets.

Lemma elem_of_unique {A} `{EqDecision A} (l : list A) x :
  x ∈ unique l ↔ x ∈ l.
Proof.
  induction l as [|y l IH]; simpl; [done|].
  rewrite !elem_of_cons, list_elem_of_filter, IH.
  destruct (decide (x = y)); tauto.
Qed.

Lemma NoDup_unique {A} `{EqDecision A} (l : list A) : NoDup (unique l).
Proof.
  induction l as [|y l IH]; simpl; [constructor|].
  constructor.
  - rewrite list_elem_of_filter. by intros [Hne _].
  - by apply NoDup_filter.
Qed.

(** X14. Each dropdown offers every continent, or year, of the table, and
    offers it once. *)
Theorem dropdown_options_of_table gapminder_df :
  NoDup (dd_options (cont_population gapminder_df))
  ∧ NoDup (dd_options (year_population gapminder_df))
  ∧ (∀ continent,
       continent ∈ dd_options (cont_population gapminder_df)
       ↔ ∃ r, r ∈ gapminder_df ∧ Continent r = continent)
  ∧ (∀ year,
       year ∈ dd_options (year_population gapminder_df)
       ↔ ∃ r, r ∈ gapminder_df ∧ Year r = year).
Proof.
  simpl. unfold continents, years.
  split; [apply NoDup_unique|]. split; [apply NoDup_unique|].
  split; intros v; rewrite elem_of_unique, list_elem_of_fmap;
    (split; [intros (r & -> & ?); eauto | intros (r & ? & <-); eauto]).
Qed.

(** X15. The map of a year has rows exactly when the year is one that the
    year dropdown offers; the variables that the variable dropdown offers,
    its initial value among them, are all accepted. *)
Theorem map_of_offered_year gapminder_df variable year :
  variable ∈ dd_value var_map :: dd_options var_map →
  ∃ fig,
    create_choropleth_map gapminder_df variable year = Ok fig
    ∧ (figure_rows fig ≠ [] ↔ year ∈ dd_options (year_map gapminder_df)).
Proof.
  intros Hvar. unfold create_choropleth_map, px_choropleth.
  assert (variable ∈ columns) as Hcol.
  { simpl in Hvar. unfold columns.
    repeat (apply elem_of_cons in Hvar as [->|Hvar]);
      [repeat constructor..|by apply elem_of_nil in Hvar]. }
  rewrite decide_True.
  2:{ split; [done|]. split; [unfold columns; repeat constructor|].
      apply Forall_cons; split; [unfold columns; repeat constructor|].
      apply Forall_cons; split; [done | apply Forall_nil_2]. }
  eexists. split; [done|]. unfold figure_rows. simpl. rewrite app_nil_r.
  unfold years, select_year. rewrite elem_of_unique, list_elem_of_fmap.
  split.
  - intros Hne. destruct (filter _ _) as [|r rows] eqn:Hf; [done|].
    assert (r ∈ filter (λ r, Year r = year) gapminder_df) as Hr
      by (rewrite Hf; left).
    apply list_elem_of_filter in Hr as [? ?]. by exists r.
  - intros (r & -> & Hr) Hnil.
    by apply (filter_nil_not_elem_of _ _ r) in Hnil.
Qed.
End Options.

Section Tabs.
Import Gapminder Ranking Widgets.

Context (sort_values : string → bool → list row → list row).

(** What a bar tab plots: the first 15 of the selected rows, sorted by the
    column of the tab. *)
Lemma bar_builder_rows metric build :
  (metric, build) ∈ bar_builders sort_values →
  ∃ key, numeric_column metric = Some key
    ∧ ∀ df continent year,
        ∃ fig, build df continent year = Ok fig
          ∧ figure_rows fig
            = take 15 (sort_values metric false
                         (select_continent_year df continent year)).
Proof.
  intros Hin. unfold bar_builders in Hin.
  repeat (apply elem_of_cons in Hin as [Heq|Hin]);
    [injection Heq as -> ->..|by apply elem_of_nil in Hin].
  - eexists. split; [reflexivity|]. apply population_chart_rows.
  - eexists. split; [reflexivity|]. apply gdp_chart_rows.
  - eexists. split; [reflexivity|]. apply life_exp_chart_rows.
Qed.

Lemma selection_empty_iff df continent year :
  select_continent_year df continent year = []
  ↔ ¬ ∃ r, r ∈ df ∧ Continent r = continent ∧ Year r = year.
Proof.
  unfold select_continent_year. split.
  - intros Hnil (r & Hr & Hc & Hy).
    assert (r ∈ filter (λ r, Continent r = continent ∧ Year r = year) df)
      as Hin by (by apply list_elem_of_filter).
    rewrite Hnil in Hin. by apply elem_of_nil in Hin.
  - intros Hnone. destruct (filter _ _) as [|r rows] eqn:Hf; [done|].
    exfalso. apply Hnone. exists r.
    assert (r ∈ filter (λ r, Continent r = continent ∧ Year r = year) df)
      as Hr by (rewrite Hf; left).
    apply list_elem_of_filter in Hr as [[? ?] ?]. done.
Qed.

Hypothesis sort_values_reorders : reorders sort_values.

(** X10. A bar tab plots as many rows as the table has for the continent
    and the year, up to 15; a pair that the table does not have gives a
    chart without rows, not an error. *)
Theorem bar_chart_row_count metric build gapminder_df continent year :
  (metric, build) ∈ bar_builders sort_values →
  ∃ fig,
    build gapminder_df continent year = Ok fig
    ∧ length (figure_rows fig)
      = (15 `min` length (select_continent_year gapminder_df continent year))%nat
    ∧ (figure_rows fig = []
       ↔ ¬ ∃ r, r ∈ gapminder_df ∧ Continent r = continent ∧ Year r = year).
Proof.
  intros Hin. destruct (bar_builder_rows metric build Hin) as (key & _ & Hrows).
  destruct (Hrows gapminder_df continent year) as (fig & Hfig & Heq).
  exists fig. split; [done|]. rewrite Heq.
  pose proof (sort_values_reorders metric false
                (select_continent_year gapminder_df continent year)) as Hperm.
  split.
  - by rewrite length_take, (Permutation_length Hperm).
  - rewrite <- selection_empty_iff. split.
    + intros Hnil. apply (f_equal length) in Hnil.
      rewrite length_take, (Permutation_length Hperm) in Hnil.
      destruct (select_continent_year _ _ _); [done|]. simpl in Hnil. lia.
    + intros Hnil. rewrite Hnil in Hperm |- *.
      apply Permutation_nil_r in Hperm. by rewrite Hperm.
Qed.

(** X12. When at most 15 rows are selected, the three bar tabs plot the
    same rows, each in its own order. *)
Theorem bar_tabs_plot_same_rows metric1 build1 metric2 build2
    gapminder_df continent year :
  (metric1, build1) ∈ bar_builders sort_values →
  (metric2, build2) ∈ bar_builders sort_values →
  (length (select_continent_year gapminder_df continent year) ≤ 15)%nat →
  ∃ fig1 fig2,
    build1 gapminder_df continent year = Ok fig1
    ∧ build2 gapminder_df continent year = Ok fig2
    ∧ figure_rows fig1 ≡ₚ figure_rows fig2
    ∧ figure_rows fig1 ≡ₚ select_continent_year gapminder_df continent year.
Proof.
  intros Hin1 Hin2 Hlen.
  destruct (bar_builder_rows metric1 build1 Hin1) as (key1 & _ & Hrows1).
  destruct (bar_builder_rows metric2 build2 Hin2) as (key2 & _ & Hrows2).
  destruct (Hrows1 gapminder_df continent year) as (fig1 & Hfig1 & Heq1).
  destruct (Hrows2 gapminder_df continent year) as (fig2 & Hfig2 & Heq2).
  exists fig1, fig2. split; [done|]. split; [done|]. rewrite Heq1, Heq2.
  pose proof (sort_values_reorders metric1 false
                (select_continent_year gapminder_df continent year)) as Hp1.
  pose proof (sort_values_reorders metric2 false
                (select_continent_year gapminder_df continent year)) as Hp2.
  rewrite !take_ge by (by rewrite ?(Permutation_length Hp1), ?(Permutation_length Hp2)).
  split; [by rewrite Hp1, Hp2 | done].
Qed.

(** X16. Every continent that the dropdown offers has, for some year that
    the dropdown offers, a chart with rows in each bar tab. *)
Theorem offered_continent_has_chart gapminder_df continent :
  continent ∈ dd_options (cont_population gapminder_df) →
  ∃ year,
    year ∈ dd_options (year_population gapminder_df)
    ∧ ∀ metric build, (metric, build) ∈ bar_builders sort_values →
        ∃ fig, build gapminder_df continent year = Ok fig
               ∧ figure_rows fig ≠ [].
Proof.
  simpl. unfold continents, years. rewrite elem_of_unique, list_elem_of_fmap.
  intros (r & -> & Hr). exists (Year r). split.
  - rewrite elem_of_unique. by apply list_elem_of_fmap_2.
  - intros metric build Hin.
    destruct (bar_builder_rows metric build Hin) as (key & _ & Hrows).
    destruct (Hrows gapminder_df (Continent r) (Year r)) as (fig & Hfig & Heq).
    exists fig. split; [done|]. rewrite Heq. intros Hnil.
    pose proof (sort_values_reorders metric false
      (select_continent_year gapminder_df (Continent r) (Year r))) as Hperm.
    apply (f_equal length) in Hnil.
    rewrite length_take, (Permutation_length Hperm) in Hnil.
    assert (r ∈ select_continent_year gapminder_df (Continent r) (Year r)) as Hsel.
    { unfold select_continent_year. by apply list_elem_of_filter. }
    destruct (select_continent_year _ _ _); [by apply elem_of_nil in Hsel|].
    simpl in Hnil. lia.
Qed.

Lemma select_continent_year_sublist df continent year :
  select_continent_year df continent year `sublist_of` select_year df year.
Proof.
  unfold select_continent_year, select_year.
  induction df as [|r df IH]; [done|].
  rewrite !filter_cons. destruct (decide (Year r = year)) as [Hy|Hy].
  - destruct (decide (_ ∧ _)); [by apply sublist_skip | by apply sublist_cons].
  - destruct (decide (_ ∧ _)) as [[_ ?]|]; done.
Qed.

(** X13. Every row of a bar chart is on the map of the same year, as often
    as in the bar chart at least. *)
Theorem bar_rows_on_map metric build variable gapminder_df continent year :
  (metric, build) ∈ bar_builders sort_values →
  variable ∈ dd_options var_map →
  ∃ bar map_,
    build gapminder_df continent year = Ok bar
    ∧ create_choropleth_map gapminder_df variable year = Ok map_
    ∧ figure_rows bar ⊆+ figure_rows map_.
Proof.
  intros Hin Hvar.
  destruct (bar_builder_rows metric build Hin) as (key & _ & Hrows).
  destruct (Hrows gapminder_df continent year) as (bar & Hbar & Heq).
  exists bar. rewrite Heq. unfold create_choropleth_map, px_choropleth.
  assert (variable ∈ columns) as Hcol.
  { simpl in Hvar. unfold columns.
    repeat (apply elem_of_cons in Hvar as [->|Hvar]);
      [repeat constructor..|by apply elem_of_nil in Hvar]. }
  rewrite decide_True.
  2:{ split; [done|]. split; [unfold columns; repeat constructor|].
      apply Forall_cons; split; [unfold columns; repeat constructor|].
      apply Forall_cons; split; [done | apply Forall_nil_2]. }
  eexists. split; [done|]. split; [done|].
  unfold figure_rows. simpl. rewrite app_nil_r.
  etrans; [apply sublist_submseteq, sublist_take|].
  rewrite (sort_values_reorders metric false
             (select_continent_year gapminder_df continent year)).
  apply sublist_submseteq, select_continent_year_sublist.
Qed.

Hypothesis sort_values_descending : sorts_descending sort_values.

(** X11. The rows that a bar tab leaves out are no larger, in the column of
    the tab, than any row that it plots. *)
Theorem top15_dominates_rest metric build gapminder_df continent year :
  (metric, build) ∈ bar_builders sort_values →
  ∃ key fig rest,
    numeric_column metric = Some key
    ∧ build gapminder_df continent year = Ok fig
    ∧ figure_rows fig ++ rest
      ≡ₚ select_continent_year gapminder_df continent year
    ∧ ∀ a b, a ∈ figure_rows fig → b ∈ rest → (key b <= key a)%Q.
Proof.
  intros Hin. destruct (bar_builder_rows metric build Hin) as (key & Hkey & Hrows).
  destruct (Hrows gapminder_df continent year) as (fig & Hfig & Heq).
  exists key, fig,
    (drop 15 (sort_values metric false
                (select_continent_year gapminder_df continent year))).
  split; [done|]. split; [done|]. rewrite Heq, take_drop. split.
  - apply sort_values_reorders.
  - intros a b Ha Hb.
    pose proof (sort_values_descending metric key
      (select_continent_year gapminder_df continent year) Hkey) as Hsorted.
    apply Sorted_StronglySorted in Hsorted; [|apply _].
    rewrite <- (take_drop 15) in Hsorted.
    by apply (StronglySorted_app_1_elem_of _ _ _ a b) in Hsorted.
Qed.
End Tabs.

(** * The housing histogram *)
Section Housing.
Import TableAndFigureApp HousingLayout.

(** X17. Over a table that has a column, as the layout requires of it,
    [update_histogram] labels the y axis of every figure it returns
    [Frequency]. For the label of a column the figure is one histogram of
    that column over the whole table, titled and labelled after it, and any
    other label is refused by plotly express. For [None], which the
    dropdown sends once its choice is cleared, a figure with traces is
    returned all the same, titled [Histogram of None]. *)
Theorem histogram_of_column df selected_feature :
  df ≠ [] →
  match update_histogram df selected_feature with
  | Ok fig =>
      layout fig !! "yaxis_title" = Some (PStr "Frequency")
      ∧ match selected_feature with
        | Some col =>
            col ∈ df.*1
            ∧ data fig = [Histogram df col]
            ∧ title fig = Some (PStr ("Histogram of " +:+ col))
            ∧ layout fig !! "xaxis_title" = Some (PStr col)
        | None =>
            data fig ≠ []
            ∧ title fig = Some (PStr "Histogram of None")
        end
  | Raised _ => ∃ col, selected_feature = Some col ∧ col ∉ df.*1
  end.
Proof.
  intros Hdf. unfold update_histogram, px_histogram.
  destruct selected_feature as [col|]; simpl.
  - destruct (bool_decide _) eqn:Hin; simpl.
    + apply bool_decide_eq_true in Hin. by repeat split.
    + apply bool_decide_eq_false in Hin. by exists col.
  - repeat split; try done. by destruct df.
Qed.

(** X18. Every option of the feature dropdown carries a column label both
    as its label and as its value, and the callback accepts it; so does it
    accept the initial value, the first column, which only a table without
    columns lacks. *)
Theorem feature_dropdown_accepted df :
  (∀ opt, opt ∈ feature_options df →
     opt.1 = opt.2 ∧ ∃ fig, update_histogram df (Some opt.2) = Ok fig)
  ∧ match feature_default df with
    | Some value =>
        (value, value) ∈ feature_options df
        ∧ ∃ fig, update_histogram df (Some value) = Ok fig
    | None => df = []
    end.
Proof.
  assert (∀ col, col ∈ df.*1 → ∃ fig, update_histogram df (Some col) = Ok fig)
    as Hok.
  { intros col Hcol. unfold update_histogram, px_histogram.
    rewrite bool_decide_true by done. simpl. eauto. }
  split.
  - intros opt Hopt. unfold feature_options in Hopt.
    apply list_elem_of_fmap in Hopt as (col & -> & Hcol). split; [done|].
    by apply Hok.
  - unfold feature_default, feature_options.
    destruct df as [|[col values] df]; [done|]. simpl.
    split; [left|]. apply Hok. simpl. left.
Qed.
End Housing.

(** * The further contracts at sample inputs *)

Section MoreWitnesses.
Import YFinance Contract StockLayout Gapminder Ranking Widgets.

(** Decides a closed proposition by evaluation. *)
Ltac evaluate := apply (bool_decide_unpack _); vm_compute; exact I.

Lemma candlestick_drawn_witness :
  ∃ open_ high_ low_ close_,
    ("Open", open_)
      ∈ zip (labels_of (YFinance.columns Samples.full)) (Floats <$> values Samples.full)
    ∧ ("High", high_)
      ∈ zip (labels_of (YFinance.columns Samples.full)) (Floats <$> values Samples.full)
    ∧ ("Low", low_)
      ∈ zip (labels_of (YFinance.columns Samples.full)) (Floats <$> values Samples.full)
    ∧ ("Close", close_)
      ∈ zip (labels_of (YFinance.columns Samples.full)) (Floats <$> values Samples.full)
    ∧ returned (run (λ _, Samples.full)
        (RealTimeStockChart.update_chart (Some 1) "aapl" None None))
      = Ok (update_layout (candlestick_layout "aapl")
              (go_Figure_data
                 [Candlestick [Datetimes (index Samples.full)]
                    [open_] [high_] [low_] [close_] "aapl"]),
            {[ "visibility" := PStr "visible" ]})
    ∧ returned (run (λ _, Samples.full)
        (RealTimeStockChart2.update_chart (Some 1) "aapl" None None))
      = Ok (update_layout (candlestick_layout (upper "aapl"))
              (go_Figure_data
                 [Candlestick [Datetimes (index Samples.full)]
                    [open_] [high_] [low_] [close_] (upper "aapl")]),
            <["flex" := PInt 1]> {[ "visibility" := PStr "visible" ]}).
Proof.
  apply (candlestick_drawn (λ _, Samples.full) 1 "aapl" None None).
  - lia.
  - reflexivity.
  - reflexivity.
  - evaluate.
  - evaluate.
  - simpl. lia.
  - evaluate.
Defined.


Lemma trace_only_from_checked_frame_witness :
  truthy (Some 1) = true
  ∧ empty Samples.full = false
  ∧ Forall (λ col, contains (normalized_columns Samples.full) col = true)
      required_columns.
Proof.
  eapply (trace_only_from_checked_frame (λ _, Samples.full) (Some 1) "AAPL"
            None None).
  - left. reflexivity.
  - discriminate.
Defined.

Lemma missing_date_column_raises_witness :
  returned (run (λ _, MoreSamples.intraday)
    (RealTimeStockChart.update_chart (Some 1) "AAPL" None None))
  = Raised (KeyError "Date")
  ∧ returned (run (λ _, MoreSamples.intraday)
      (RealTimeStockChart2.update_chart (Some 1) "AAPL" None None))
    = Raised (KeyError "Date").
Proof.
  eapply (missing_date_column_raises (λ _, MoreSamples.intraday) 1 "AAPL"
            None None).
  - lia.
  - reflexivity.
  - reflexivity.
  - evaluate.
Defined.

Lemma reset_index_fault_propagates_witness :
  returned (run (λ _, MoreSamples.date_column)
    (RealTimeStockChart.update_chart (Some 1) "AAPL" None None))
  = Raised (ValueError "cannot insert Date, already exists")
  ∧ returned (run (λ _, MoreSamples.date_column)
      (RealTimeStockChart2.update_chart (Some 1) "AAPL" None None))
    = Raised (ValueError "cannot insert Date, already exists").
Proof.
  apply (reset_index_fault_propagates (λ _, MoreSamples.date_column) 1 "AAPL"
           None None); [lia | reflexivity | reflexivity].
Defined.

Lemma other_columns_ignored_witness :
  returned (run (λ _, with_column MoreSamples.flat "Volume" Samples.two_days)
    (RealTimeStockChart.update_chart (Some 1) "AAPL" None None))
  = returned (run (λ _, MoreSamples.flat)
      (RealTimeStockChart.update_chart (Some 1) "AAPL" None None))
  ∧ returned (run (λ _, with_column MoreSamples.flat "Volume" Samples.two_days)
      (RealTimeStockChart2.update_chart (Some 1) "AAPL" None None))
    = returned (run (λ _, MoreSamples.flat)
        (RealTimeStockChart2.update_chart (Some 1) "AAPL" None None)).
Proof.
  apply (other_columns_ignored (λ _, MoreSamples.flat)
           (λ _, with_column MoreSamples.flat "Volume" Samples.two_days)
           (Some 1) "AAPL" None None "Volume" Samples.two_days).
  - reflexivity.
  - reflexivity.
  - reflexivity.
  - reflexivity.
  - evaluate.
Defined.

Lemma population_tab : 
  ("Population", create_population_chart merge_sort_values)
  ∈ bar_builders merge_sort_values.
Proof. unfold bar_builders. left. Qed.

Lemma gdp_tab : 
  ("GDP per Capita", create_gdp_chart merge_sort_values)
  ∈ bar_builders merge_sort_values.
Proof. unfold bar_builders. right. left. Qed.

Lemma bar_chart_row_count_witness :
  ∃ fig,
    create_population_chart merge_sort_values sample_df "Asia" 1952 = Ok fig
    ∧ length (figure_rows fig)
      = (15 `min` length (select_continent_year sample_df "Asia" 1952))%nat
    ∧ (figure_rows fig = []
       ↔ ¬ ∃ r, r ∈ sample_df ∧ Continent r = "Asia" ∧ Year r = 1952).
Proof.
  exact (bar_chart_row_count merge_sort_values merge_sort_values_reorders
           "Population" (create_population_chart merge_sort_values)
           sample_df "Asia" 1952 population_tab).
Defined.

Lemma top15_dominates_rest_witness :
  ∃ key fig rest,
    numeric_column "GDP per Capita" = Some key
    ∧ create_gdp_chart merge_sort_values sample_df "Asia" 1952 = Ok fig
    ∧ figure_rows fig ++ rest ≡ₚ select_continent_year sample_df "Asia" 1952
    ∧ ∀ a b, a ∈ figure_rows fig → b ∈ rest → (key b <= key a)%Q.
Proof.
  exact (top15_dominates_rest merge_sort_values merge_sort_values_reorders
           merge_sort_values_descending
           "GDP per Capita" (create_gdp_chart merge_sort_values)
           sample_df "Asia" 1952 gdp_tab).
Defined.

Lemma bar_tabs_plot_same_rows_witness :
  ∃ fig1 fig2,
    create_population_chart merge_sort_values sample_df "Asia" 1952 = Ok fig1
    ∧ create_gdp_chart merge_sort_values sample_df "Asia" 1952 = Ok fig2
    ∧ figure_rows fig1 ≡ₚ figure_rows fig2
    ∧ figure_rows fig1 ≡ₚ select_continent_year sample_df "Asia" 1952.
Proof.
  apply (bar_tabs_plot_same_rows merge_sort_values merge_sort_values_reorders
           "Population" (create_population_chart merge_sort_values)
           "GDP per Capita" (create_gdp_chart merge_sort_values)
           sample_df "Asia" 1952 population_tab gdp_tab).
  simpl. lia.
Defined.

Lemma bar_rows_on_map_witness :
  ∃ bar map_,
    create_population_chart merge_sort_values sample_df "Asia" 1952 = Ok bar
    ∧ create_choropleth_map sample_df "Life Expectancy" 1952 = Ok map_
    ∧ figure_rows bar ⊆+ figure_rows map_.
Proof.
  apply (bar_rows_on_map merge_sort_values merge_sort_values_reorders
           "Population" (create_population_chart merge_sort_values)
           "Life Expectancy" sample_df "Asia" 1952 population_tab).
  simpl. do 2 right. left.
Defined.

Lemma map_of_offered_year_witness :
  ∃ fig,
    create_choropleth_map sample_df "Life Expectancy" 1957 = Ok fig
    ∧ (figure_rows fig ≠ [] ↔ 1957 ∈ dd_options (year_map sample_df)).
Proof.
  apply (map_of_offered_year sample_df "Life Expectancy" 1957). left.
Defined.

Lemma offered_continent_has_chart_witness :
  ∃ year,
    year ∈ dd_options (year_population sample_df)
    ∧ ∀ metric build, (metric, build) ∈ bar_builders merge_sort_values →
        ∃ fig, build sample_df "Europe" year = Ok fig ∧ figure_rows fig ≠ [].
Proof.
  apply (offered_continent_has_chart merge_sort_values
           merge_sort_values_reorders sample_df "Europe").
  evaluate.
Defined.
Lemma histogram_of_column_witness :
  match
    TableAndFigureApp.update_histogram Samples.housing (Some "MedInc")
  with
  | Ok fig =>
      layout fig !! "yaxis_title" = Some (PStr "Frequency")
      ∧ "MedInc" ∈ Samples.housing.*1
      ∧ data fig = [TableAndFigureApp.Histogram Samples.housing "MedInc"]
      ∧ title fig = Some (PStr "Histogram of MedInc")
      ∧ layout fig !! "xaxis_title" = Some (PStr "MedInc")
  | Raised _ => ∃ col, Some "MedInc" = Some col ∧ col ∉ Samples.housing.*1
  end.
Proof.
  apply (histogram_of_column Samples.housing (Some "MedInc")). discriminate.
Defined.

Lemma download_fault_propagates_witness :
  run_faulty (MoreSamples.refusing (ValueError "no ticker symbol"))
    (RealTimeStockChart.update_chart (Some 1) "" None None)
  = mkOutcome (Raised (ValueError "no ticker symbol"))
      [submitted "" None None] []
  ∧ run_faulty (MoreSamples.refusing (ValueError "no ticker symbol"))
      (RealTimeStockChart2.update_chart (Some 1) "" None None)
    = mkOutcome (Raised (ValueError "no ticker symbol"))
        [submitted "" None None] [].
Proof.
  apply (download_fault_propagates
           (MoreSamples.refusing (ValueError "no ticker symbol")) 1 "" None
           None).
  - lia.
  - reflexivity.
Defined.

Lemma raises_from_download_or_drawing_witness :
  truthy (Some 1) = true
  ∧ (MoreSamples.answering MoreSamples.two_tickers
       (submitted "AAPL MSFT" None None)
     = Raised (invalid_value "close")
     ∨ ∃ df, MoreSamples.answering MoreSamples.two_tickers
               (submitted "AAPL MSFT" None None)
             = Ok df
             ∧ failure_of df = None).
Proof.
  apply (raises_from_download_or_drawing
           (MoreSamples.answering MoreSamples.two_tickers)
           (Some 1) "AAPL MSFT" None None (invalid_value "close")).
  left. reflexivity.
Defined.

(** Once the choice of the feature is cleared a histogram is drawn all the
    same. *)
Example histogram_after_clearing :
  ∃ fig,
    TableAndFigureApp.update_histogram Samples.housing None = Ok fig
    ∧ title fig = Some (PStr "Histogram of None")
    ∧ data fig ≠ [].
Proof. eexists. split; [reflexivity|]. split; [reflexivity | discriminate]. Qed.

End MoreWitnesses.
